(** * libcross2d: the text entity of [source/skeleton/sfml/Text.cpp]

    A shallow embedding of [c2d::Text]: its attribute setters, the lazy
    layout routine [ensureGeometryUpdate] with the two geometry builders
    [addLine] and [addGlyphQuad], and the position query
    [findCharacterPos].

    - C++ [float] is IEEE binary32, modelled by the Standard Library's
      [spec_float] with precision 24 and maximal exponent 128; every
      comparison below is the IEEE one (false on NaN).
    - unsigned integers ([unsigned int], [uint32_t], [uint8_t]) are [Z];
      the code does no arithmetic on them besides [&] and conversions.
    - [std::string] is [string]; the UTF-32 sequence is a [list Z].
    - a [VertexArray] is a [list Vertex]; [append] adds at the end.
    - [Font *] is an optional address into a store of fonts. *)

From Stdlib Require Import ZArith String Ascii Bool Lia List.
From Stdlib Require Import Floats.SpecFloat.
Import ListNotations.
Local Open Scope Z_scope.

(** ** binary32 arithmetic *)

Module F32.

Definition prec : Z := 24.
Definition emax : Z := 128.

Definition float : Type := spec_float.

Definition add : float -> float -> float := SFadd prec emax.
Definition sub : float -> float -> float := SFsub prec emax.
Definition mul : float -> float -> float := SFmul prec emax.
Definition div : float -> float -> float := SFdiv prec emax.
Definition opp : float -> float := SFopp.

(** [a == b], [a < b], [a <= b]; [a != b] is [negb (eqb a b)] and
    [a > b] is [ltb b a]. *)
Definition eqb : float -> float -> bool := SFeqb.
Definition ltb : float -> float -> bool := SFltb.
Definition leb : float -> float -> bool := SFleb.
Definition neqb (a b : float) : bool := negb (eqb a b).

(** Conversion of an integer, [static_cast<float>(n)]. *)
Definition of_Z (n : Z) : float := binary_normalize prec emax n 0 false.

Definition zero : float := S754_zero false.
Definition one : float := of_Z 1.
Definition half : float := div (of_Z 1) (of_Z 2).

(** [std::numeric_limits<float>::max()]. *)
Definition FLT_MAX : float := SFmax_float prec emax.

(** [std::floor]: a finite value with a negative exponent has a
    magnitude below 2^24, so its floor is computed on the integers. *)
Definition floor (a : float) : float :=
  match a with
  | S754_finite s m e =>
      if 0 <=? e then a
      else
        let q := Z.shiftr (Zpos m) (- e) in
        let exact := Z.shiftl q (- e) =? Zpos m in
        if s then
          binary_normalize prec emax (- (if exact then q else q + 1)) 0 true
        else binary_normalize prec emax q 0 false
  | _ => a
  end.

(** [std::min(a, b)] is [(b < a) ? b : a]; [std::max(a, b)] is
    [(a < b) ? b : a]. *)
Definition min (a b : float) : float := if ltb b a then b else a.
Definition max (a b : float) : float := if ltb a b then b else a.

End F32.

Definition float : Type := F32.float.

Declare Scope f32_scope.
Delimit Scope f32_scope with f32.
Infix "+" := F32.add : f32_scope.
Infix "-" := F32.sub : f32_scope.
Infix "*" := F32.mul : f32_scope.
Infix "/" := F32.div : f32_scope.
Infix "<?" := F32.ltb : f32_scope.
Infix "<=?" := F32.leb : f32_scope.
Infix "=?" := F32.eqb : f32_scope.

(** ** Data model *)

Record Vector2f := { vx : float; vy : float }.
Record Vector2i := { ix : Z; iy : Z }.

Record FloatRect := { left : float; top : float; width : float; height : float }.
Record IntRect := { ileft : Z; itop : Z; iwidth : Z; iheight : Z }.

(** [FloatRect()] and [Vector2f()]. *)
Definition FloatRect0 : FloatRect :=
  {| left := F32.zero; top := F32.zero; width := F32.zero; height := F32.zero |}.
Definition Vector2f0 : Vector2f := {| vx := F32.zero; vy := F32.zero |}.

Record Color := { r : Z; g : Z; b : Z; a : Z }.

(** [Color::operator==] compares the four components. *)
Definition Color_eqb (c d : Color) : bool :=
  (r c =? r d) && (g c =? g d) && (b c =? b d) && (a c =? a d).

Record Vertex := { position : Vector2f; color : Color; texCoords : Vector2f }.

Definition VertexArray : Type := list Vertex.

(** [VertexArray::append]. *)
Definition append (vertices : VertexArray) (v : Vertex) : VertexArray :=
  vertices ++ [v].

(** Modelled from the spec: the glyph record of the glyph provider
    ("bounding box, advance width, texture rect"); its declaration is in a
    header that is not part of the sources. *)
Record Glyph := { advance : float; bounds : FloatRect; textureRect : IntRect }.

(** The glyph provider, [c2d::Font], as the text entity uses it.  The
    last argument of [getGlyph] is the outline thickness, 0 by default. *)
Record Font := {
  getGlyph : Z -> Z -> bool -> float -> Glyph;
  getKerning : Z -> Z -> Z -> bool -> float;
  getLineSpacing : Z -> float;
  getUnderlinePosition : Z -> float;
  getUnderlineThickness : Z -> float;
  getOffset : Vector2f;
  isBmFont : bool
}.

(** [Font *]: [None] is [nullptr]. *)
Definition FontPtr : Type := option positive.

Definition FontPtr_eqb (p q : FontPtr) : bool :=
  match p, q with
  | None, None => true
  | Some i, Some j => Pos.eqb i j
  | _, _ => false
  end.

(** Modelled from the spec: the style flags are "independently combinable
    bits" and the overflow mode has [Clamp = 0]; the enumerations are
    declared in a header that is not part of the sources. *)
Definition Regular : Z := 0.
Definition Bold : Z := 1.
Definition Italic : Z := 2.
Definition Underlined : Z := 4.
Definition StrikeThrough : Z := 8.
Definition Clamp : Z := 0.
Definition Wrap : Z := 1.

(** The transform of the [Transformable] base, seen through
    [transformPoint]. *)
Record Transform := { transformPoint : Vector2f -> Vector2f }.

Record Text := {
  m_string : string;
  m_font : FontPtr;
  m_characterSize : Z;
  m_style : Z;
  m_overflow : Z;
  m_fillColor : Color;
  m_outlineColor : Color;
  m_outlineThickness : float;
  m_vertices : VertexArray;
  m_outlineVertices : VertexArray;
  m_bounds : FloatRect;
  m_size : Vector2f;
  m_max_size : Vector2f;
  m_line_spacing : Z;
  m_textureSize : Vector2i;
  m_geometryNeedUpdate : bool;
  getTransform : Transform
}.

(** Assignments to one member. *)
Definition set_string (v : string) (t : Text) : Text :=
  {| m_string := v; m_font := m_font t; m_characterSize := m_characterSize t;
     m_style := m_style t; m_overflow := m_overflow t; m_fillColor := m_fillColor t;
     m_outlineColor := m_outlineColor t; m_outlineThickness := m_outlineThickness t;
     m_vertices := m_vertices t; m_outlineVertices := m_outlineVertices t;
     m_bounds := m_bounds t; m_size := m_size t; m_max_size := m_max_size t;
     m_line_spacing := m_line_spacing t; m_textureSize := m_textureSize t;
     m_geometryNeedUpdate := m_geometryNeedUpdate t; getTransform := getTransform t |}.

Definition set_font (v : FontPtr) (t : Text) : Text :=
  {| m_string := m_string t; m_font := v; m_characterSize := m_characterSize t;
     m_style := m_style t; m_overflow := m_overflow t; m_fillColor := m_fillColor t;
     m_outlineColor := m_outlineColor t; m_outlineThickness := m_outlineThickness t;
     m_vertices := m_vertices t; m_outlineVertices := m_outlineVertices t;
     m_bounds := m_bounds t; m_size := m_size t; m_max_size := m_max_size t;
     m_line_spacing := m_line_spacing t; m_textureSize := m_textureSize t;
     m_geometryNeedUpdate := m_geometryNeedUpdate t; getTransform := getTransform t |}.

Definition set_characterSize (v : Z) (t : Text) : Text :=
  {| m_string := m_string t; m_font := m_font t; m_characterSize := v;
     m_style := m_style t; m_overflow := m_overflow t; m_fillColor := m_fillColor t;
     m_outlineColor := m_outlineColor t; m_outlineThickness := m_outlineThickness t;
     m_vertices := m_vertices t; m_outlineVertices := m_outlineVertices t;
     m_bounds := m_bounds t; m_size := m_size t; m_max_size := m_max_size t;
     m_line_spacing := m_line_spacing t; m_textureSize := m_textureSize t;
     m_geometryNeedUpdate := m_geometryNeedUpdate t; getTransform := getTransform t |}.

Definition set_style (v : Z) (t : Text) : Text :=
  {| m_string := m_string t; m_font := m_font t; m_characterSize := m_characterSize t;
     m_style := v; m_overflow := m_overflow t; m_fillColor := m_fillColor t;
     m_outlineColor := m_outlineColor t; m_outlineThickness := m_outlineThickness t;
     m_vertices := m_vertices t; m_outlineVertices := m_outlineVertices t;
     m_bounds := m_bounds t; m_size := m_size t; m_max_size := m_max_size t;
     m_line_spacing := m_line_spacing t; m_textureSize := m_textureSize t;
     m_geometryNeedUpdate := m_geometryNeedUpdate t; getTransform := getTransform t |}.

Definition set_overflow (v : Z) (t : Text) : Text :=
  {| m_string := m_string t; m_font := m_font t; m_characterSize := m_characterSize t;
     m_style := m_style t; m_overflow := v; m_fillColor := m_fillColor t;
     m_outlineColor := m_outlineColor t; m_outlineThickness := m_outlineThickness t;
     m_vertices := m_vertices t; m_outlineVertices := m_outlineVertices t;
     m_bounds := m_bounds t; m_size := m_size t; m_max_size := m_max_size t;
     m_line_spacing := m_line_spacing t; m_textureSize := m_textureSize t;
     m_geometryNeedUpdate := m_geometryNeedUpdate t; getTransform := getTransform t |}.

Definition set_fillColor (v : Color) (t : Text) : Text :=
  {| m_string := m_string t; m_font := m_font t; m_characterSize := m_characterSize t;
     m_style := m_style t; m_overflow := m_overflow t; m_fillColor := v;
     m_outlineColor := m_outlineColor t; m_outlineThickness := m_outlineThickness t;
     m_vertices := m_vertices t; m_outlineVertices := m_outlineVertices t;
     m_bounds := m_bounds t; m_size := m_size t; m_max_size := m_max_size t;
     m_line_spacing := m_line_spacing t; m_textureSize := m_textureSize t;
     m_geometryNeedUpdate := m_geometryNeedUpdate t; getTransform := getTransform t |}.

Definition set_outlineColor (v : Color) (t : Text) : Text :=
  {| m_string := m_string t; m_font := m_font t; m_characterSize := m_characterSize t;
     m_style := m_style t; m_overflow := m_overflow t; m_fillColor := m_fillColor t;
     m_outlineColor := v; m_outlineThickness := m_outlineThickness t;
     m_vertices := m_vertices t; m_outlineVertices := m_outlineVertices t;
     m_bounds := m_bounds t; m_size := m_size t; m_max_size := m_max_size t;
     m_line_spacing := m_line_spacing t; m_textureSize := m_textureSize t;
     m_geometryNeedUpdate := m_geometryNeedUpdate t; getTransform := getTransform t |}.

Definition set_outlineThickness (v : float) (t : Text) : Text :=
  {| m_string := m_string t; m_font := m_font t; m_characterSize := m_characterSize t;
     m_style := m_style t; m_overflow := m_overflow t; m_fillColor := m_fillColor t;
     m_outlineColor := m_outlineColor t; m_outlineThickness := v;
     m_vertices := m_vertices t; m_outlineVertices := m_outlineVertices t;
     m_bounds := m_bounds t; m_size := m_size t; m_max_size := m_max_size t;
     m_line_spacing := m_line_spacing t; m_textureSize := m_textureSize t;
     m_geometryNeedUpdate := m_geometryNeedUpdate t; getTransform := getTransform t |}.

Definition set_vertices (v : VertexArray) (t : Text) : Text :=
  {| m_string := m_string t; m_font := m_font t; m_characterSize := m_characterSize t;
     m_style := m_style t; m_overflow := m_overflow t; m_fillColor := m_fillColor t;
     m_outlineColor := m_outlineColor t; m_outlineThickness := m_outlineThickness t;
     m_vertices := v; m_outlineVertices := m_outlineVertices t;
     m_bounds := m_bounds t; m_size := m_size t; m_max_size := m_max_size t;
     m_line_spacing := m_line_spacing t; m_textureSize := m_textureSize t;
     m_geometryNeedUpdate := m_geometryNeedUpdate t; getTransform := getTransform t |}.

Definition set_outlineVertices (v : VertexArray) (t : Text) : Text :=
  {| m_string := m_string t; m_font := m_font t; m_characterSize := m_characterSize t;
     m_style := m_style t; m_overflow := m_overflow t; m_fillColor := m_fillColor t;
     m_outlineColor := m_outlineColor t; m_outlineThickness := m_outlineThickness t;
     m_vertices := m_vertices t; m_outlineVertices := v;
     m_bounds := m_bounds t; m_size := m_size t; m_max_size := m_max_size t;
     m_line_spacing := m_line_spacing t; m_textureSize := m_textureSize t;
     m_geometryNeedUpdate := m_geometryNeedUpdate t; getTransform := getTransform t |}.

Definition set_bounds (v : FloatRect) (t : Text) : Text :=
  {| m_string := m_string t; m_font := m_font t; m_characterSize := m_characterSize t;
     m_style := m_style t; m_overflow := m_overflow t; m_fillColor := m_fillColor t;
     m_outlineColor := m_outlineColor t; m_outlineThickness := m_outlineThickness t;
     m_vertices := m_vertices t; m_outlineVertices := m_outlineVertices t;
     m_bounds := v; m_size := m_size t; m_max_size := m_max_size t;
     m_line_spacing := m_line_spacing t; m_textureSize := m_textureSize t;
     m_geometryNeedUpdate := m_geometryNeedUpdate t; getTransform := getTransform t |}.

Definition set_size (v : Vector2f) (t : Text) : Text :=
  {| m_string := m_string t; m_font := m_font t; m_characterSize := m_characterSize t;
     m_style := m_style t; m_overflow := m_overflow t; m_fillColor := m_fillColor t;
     m_outlineColor := m_outlineColor t; m_outlineThickness := m_outlineThickness t;
     m_vertices := m_vertices t; m_outlineVertices := m_outlineVertices t;
     m_bounds := m_bounds t; m_size := v; m_max_size := m_max_size t;
     m_line_spacing := m_line_spacing t; m_textureSize := m_textureSize t;
     m_geometryNeedUpdate := m_geometryNeedUpdate t; getTransform := getTransform t |}.

Definition set_max_size (v : Vector2f) (t : Text) : Text :=
  {| m_string := m_string t; m_font := m_font t; m_characterSize := m_characterSize t;
     m_style := m_style t; m_overflow := m_overflow t; m_fillColor := m_fillColor t;
     m_outlineColor := m_outlineColor t; m_outlineThickness := m_outlineThickness t;
     m_vertices := m_vertices t; m_outlineVertices := m_outlineVertices t;
     m_bounds := m_bounds t; m_size := m_size t; m_max_size := v;
     m_line_spacing := m_line_spacing t; m_textureSize := m_textureSize t;
     m_geometryNeedUpdate := m_geometryNeedUpdate t; getTransform := getTransform t |}.

Definition set_line_spacing (v : Z) (t : Text) : Text :=
  {| m_string := m_string t; m_font := m_font t; m_characterSize := m_characterSize t;
     m_style := m_style t; m_overflow := m_overflow t; m_fillColor := m_fillColor t;
     m_outlineColor := m_outlineColor t; m_outlineThickness := m_outlineThickness t;
     m_vertices := m_vertices t; m_outlineVertices := m_outlineVertices t;
     m_bounds := m_bounds t; m_size := m_size t; m_max_size := m_max_size t;
     m_line_spacing := v; m_textureSize := m_textureSize t;
     m_geometryNeedUpdate := m_geometryNeedUpdate t; getTransform := getTransform t |}.

Definition set_geometryNeedUpdate (v : bool) (t : Text) : Text :=
  {| m_string := m_string t; m_font := m_font t; m_characterSize := m_characterSize t;
     m_style := m_style t; m_overflow := m_overflow t; m_fillColor := m_fillColor t;
     m_outlineColor := m_outlineColor t; m_outlineThickness := m_outlineThickness t;
     m_vertices := m_vertices t; m_outlineVertices := m_outlineVertices t;
     m_bounds := m_bounds t; m_size := m_size t; m_max_size := m_max_size t;
     m_line_spacing := m_line_spacing t; m_textureSize := m_textureSize t;
     m_geometryNeedUpdate := v; getTransform := getTransform t |}.

(** ** What the text entity takes from its surroundings

    - [from_bytes]: the standard converter
      [std::wstring_convert<std::codecvt_utf8<char32_t>, char32_t>];
      [None] is the [std::range_error] it raises on input it rejects;
    - [font_at]: the fonts behind the non-null [Font *] values;
    - [C2D_DEFAULT_CHAR_SIZE]: a macro of a header that is not part of the
      sources, as the [float] the division in the layout converts it to;
    - [C2DObject_setAlpha]: the base class's [setAlpha]. *)
Class Runtime := {
  from_bytes : string -> option (list Z);
  font_at : positive -> Font;
  C2D_DEFAULT_CHAR_SIZE : float;
  C2DObject_setAlpha : Z -> bool -> Text -> Text
}.

(** ** Geometry builders *)

Definition mkVertex (px py : float) (c : Color) (u v : float) : Vertex :=
  {| position := {| vx := px; vy := py |}; color := c;
     texCoords := {| vx := u; vy := v |} |}.

(** [addLine]: an underline or strikethrough bar. *)
Definition addLine (vertices : VertexArray) (texSize : Vector2i)
    (lineLength lineTop : float) (color : Color) (offset thickness : float)
    (outlineThickness : float) : VertexArray :=
  let top := F32.floor (lineTop + offset - (thickness / F32.of_Z 2) + F32.half)%f32 in
  let bottom := (top + F32.floor (thickness + F32.half))%f32 in
  let u := (F32.one / F32.of_Z (ix texSize))%f32 in
  let v := (F32.one / F32.of_Z (iy texSize))%f32 in
  let l := F32.opp outlineThickness in
  let r := (lineLength + outlineThickness)%f32 in
  let t := (top - outlineThickness)%f32 in
  let b := (bottom + outlineThickness)%f32 in
  let vertices := append vertices (mkVertex l t color u v) in
  let vertices := append vertices (mkVertex r t color u v) in
  let vertices := append vertices (mkVertex l b color u v) in
  let vertices := append vertices (mkVertex l b color u v) in
  let vertices := append vertices (mkVertex r t color u v) in
  append vertices (mkVertex r b color u v).

(** [addGlyphQuad]: the two triangles of one glyph. *)
Definition addGlyphQuad (vertices : VertexArray) (texSize : Vector2i)
    (position : Vector2f) (color : Color) (glyph : Glyph) (italic : float)
    : VertexArray :=
  let padding := F32.one in
  let gb := bounds glyph in
  let tr := textureRect glyph in
  let right := (left gb + width gb + padding)%f32 in
  let bottom := (top gb + height gb + padding)%f32 in
  let left := (left gb - padding)%f32 in
  let top := (top gb - padding)%f32 in
  let u1 := ((F32.of_Z (ileft tr) - padding) / F32.of_Z (ix texSize))%f32 in
  let v1 := ((F32.of_Z (itop tr) - padding) / F32.of_Z (iy texSize))%f32 in
  let u2 := ((F32.of_Z (ileft tr + iwidth tr) + padding) / F32.of_Z (ix texSize))%f32 in
  let v2 := ((F32.of_Z (itop tr + iheight tr) + padding) / F32.of_Z (iy texSize))%f32 in
  let px := vx position in
  let py := vy position in
  let vertices :=
    append vertices (mkVertex (px + left - italic * top) (py + top) color u1 v1)%f32 in
  let vertices :=
    append vertices (mkVertex (px + right - italic * top) (py + top) color u2 v1)%f32 in
  let vertices :=
    append vertices (mkVertex (px + left - italic * bottom) (py + bottom) color u1 v2)%f32 in
  let vertices :=
    append vertices (mkVertex (px + left - italic * bottom) (py + bottom) color u1 v2)%f32 in
  let vertices :=
    append vertices (mkVertex (px + right - italic * top) (py + top) color u2 v1)%f32 in
  append vertices (mkVertex (px + right - italic * bottom) (py + bottom) color u2 v2)%f32.

(** ** The layout's local variables

    The locals of [ensureGeometryUpdate] that change in the character
    loop, together with the two member buffers the loop appends to; the
    other members are read only until the final assignments. *)

Record Pen := {
  x : float;
  y : float;
  minX : float;
  minY : float;
  maxX : float;
  maxY : float;
  prevChar : Z;
  truncated : bool;
  vertices : VertexArray;
  outlineVertices : VertexArray
}.

Definition set_x (v : float) (s : Pen) : Pen :=
  {| x := v; y := y s; minX := minX s; minY := minY s; maxX := maxX s;
     maxY := maxY s; prevChar := prevChar s; truncated := truncated s;
     vertices := vertices s; outlineVertices := outlineVertices s |}.

Definition set_y (v : float) (s : Pen) : Pen :=
  {| x := x s; y := v; minX := minX s; minY := minY s; maxX := maxX s;
     maxY := maxY s; prevChar := prevChar s; truncated := truncated s;
     vertices := vertices s; outlineVertices := outlineVertices s |}.

Definition set_prevChar (v : Z) (s : Pen) : Pen :=
  {| x := x s; y := y s; minX := minX s; minY := minY s; maxX := maxX s;
     maxY := maxY s; prevChar := v; truncated := truncated s;
     vertices := vertices s; outlineVertices := outlineVertices s |}.

Definition set_truncated (v : bool) (s : Pen) : Pen :=
  {| x := x s; y := y s; minX := minX s; minY := minY s; maxX := maxX s;
     maxY := maxY s; prevChar := prevChar s; truncated := v;
     vertices := vertices s; outlineVertices := outlineVertices s |}.

Definition set_pen_vertices (v : VertexArray) (s : Pen) : Pen :=
  {| x := x s; y := y s; minX := minX s; minY := minY s; maxX := maxX s;
     maxY := maxY s; prevChar := prevChar s; truncated := truncated s;
     vertices := v; outlineVertices := outlineVertices s |}.

Definition set_pen_outlineVertices (v : VertexArray) (s : Pen) : Pen :=
  {| x := x s; y := y s; minX := minX s; minY := minY s; maxX := maxX s;
     maxY := maxY s; prevChar := prevChar s; truncated := truncated s;
     vertices := vertices s; outlineVertices := v |}.

(** The four [std::min]/[std::max] updates of the running box, from the
    edges [left], [top], [right], [bottom] of a glyph box. *)
Definition extend (italic l t r b : float) (s : Pen) : Pen :=
  {| x := x s; y := y s;
     minX := F32.min (minX s) (x s + l - italic * b)%f32;
     minY := F32.min (minY s) (y s + t)%f32;
     maxX := F32.max (maxX s) (x s + r - italic * t)%f32;
     maxY := F32.max (maxY s) (y s + b)%f32;
     prevChar := prevChar s; truncated := truncated s;
     vertices := vertices s; outlineVertices := outlineVertices s |}.

(** How one turn of the character loop ends: the next character, the
    jump to [add_ellipsis], or [break]. *)
Inductive flow :=
  | Next (s : Pen)
  | GotoEllipsis (s : Pen)
  | Break (s : Pen).

(** How [ensureGeometryUpdate] ends: it returns, or the converter raises. *)
Inductive result :=
  | Ok (t : Text)
  | RangeError (t : Text).

Definition state_of (r : result) : Text :=
  match r with Ok t | RangeError t => t end.

(** How a query that updates the geometry first ends: it returns a
    value, in the state the update left, or the update raises and the
    error goes through the query, which returns nothing. *)
Inductive answer (A : Type) : Type :=
  | Returned (t : Text) (v : A)
  | Raised (t : Text).

Arguments Returned {A} t v.
Arguments Raised {A} t.

Definition space : Z := 32.
Definition tab : Z := 9.
Definition newline : Z := 10.
Definition dot : Z := 46.
Definition letter_x : Z := 120.

Section TextEntity.

Context {rt : Runtime}.

(** ** Setters *)

Definition setString (s : string) (t : Text) : Text :=
  if negb (String.eqb (m_string t) s)
  then set_geometryNeedUpdate true (set_string s t)
  else t.

Definition setFont (font : FontPtr) (t : Text) : Text :=
  if negb (FontPtr_eqb (m_font t) font)
  then set_geometryNeedUpdate true (set_font font t)
  else t.

Definition setCharacterSize (size : Z) (t : Text) : Text :=
  if negb (m_characterSize t =? size)
  then set_geometryNeedUpdate true (set_characterSize size t)
  else t.

Definition setStyle (style : Z) (t : Text) : Text :=
  if negb (m_style t =? style)
  then set_geometryNeedUpdate true (set_style style t)
  else t.

Definition setOverflow (overflow : Z) (t : Text) : Text :=
  if negb (m_overflow t =? overflow)
  then set_geometryNeedUpdate true (set_overflow overflow t)
  else t.

(** The loop [m_vertices[i].color = ...] over every index. *)
Definition recolor (c : Color) (vs : VertexArray) : VertexArray :=
  map (fun v => {| position := position v; color := c; texCoords := texCoords v |}) vs.

Definition setFillColor (color : Color) (t : Text) : Text :=
  if negb (Color_eqb color (m_fillColor t)) then
    let t := set_fillColor color t in
    if negb (m_geometryNeedUpdate t)
    then set_vertices (recolor (m_fillColor t) (m_vertices t)) t
    else t
  else t.

(** [setOutlineColor] and [setOutlineThickness] call [m_font->isBmFont()]
    first: with a null font the behaviour is undefined, [None]. *)
Definition setOutlineColor (color : Color) (t : Text) : option Text :=
  match m_font t with
  | None => None
  | Some p =>
      if negb (isBmFont (font_at p)) && negb (Color_eqb color (m_outlineColor t)) then
        let t := set_outlineColor color t in
        if negb (m_geometryNeedUpdate t)
        then Some (set_outlineVertices (recolor (m_outlineColor t) (m_outlineVertices t)) t)
        else Some t
      else Some t
  end.

Definition setOutlineThickness (thickness : float) (t : Text) : option Text :=
  match m_font t with
  | None => None
  | Some p =>
      if negb (isBmFont (font_at p)) && F32.neqb thickness (m_outlineThickness t)
      then Some (set_geometryNeedUpdate true (set_outlineThickness thickness t))
      else Some t
  end.

Definition with_alpha (alpha : Z) (c : Color) : Color :=
  {| r := r c; g := g c; b := b c; a := alpha |}.

Definition setAlpha (alpha : Z) (recursive : bool) (t : Text) : option Text :=
  let after :=
    if negb (alpha =? a (m_fillColor t)) then
      let t := setFillColor (with_alpha alpha (m_fillColor t)) t in
      setOutlineColor (with_alpha alpha (m_outlineColor t)) t
    else Some t in
  match after with
  | None => None
  | Some t => Some (if recursive then C2DObject_setAlpha alpha recursive t else t)
  end.

Definition getAlpha (t : Text) : Z := a (m_fillColor t).

Definition setSizeMax (width height : float) (t : Text) : Text :=
  set_geometryNeedUpdate true (set_max_size {| vx := width; vy := height |} t).

Definition setLineSpacingModifier (size : Z) (t : Text) : Text :=
  set_line_spacing size t.

(** ** Layout: what is computed before the character loop *)

Definition has (style flag : Z) : bool := negb (Z.land style flag =? 0).

Definition bold (t : Text) : bool := has (m_style t) Bold.
Definition underlined (t : Text) : bool := has (m_style t) Underlined.
Definition strikeThrough (t : Text) : bool := has (m_style t) StrikeThrough.

(** [0.208f] is the binary32 value nearest to 208/1000. *)
Definition italic (t : Text) : float :=
  if has (m_style t) Italic then (F32.of_Z 208 / F32.of_Z 1000)%f32 else F32.zero.

Definition underlineOffset (f : Font) (t : Text) : float :=
  getUnderlinePosition f (m_characterSize t).
Definition underlineThickness (f : Font) (t : Text) : float :=
  getUnderlineThickness f (m_characterSize t).

Definition hspace (f : Font) (t : Text) : float :=
  advance (getGlyph f space (m_characterSize t) (bold t) F32.zero).
Definition vspace (f : Font) (t : Text) : float :=
  (getLineSpacing f (m_characterSize t) + F32.of_Z (m_line_spacing t))%f32.

Definition scale (t : Text) : float :=
  (F32.of_Z (m_characterSize t) / C2D_DEFAULT_CHAR_SIZE)%f32.

(** [m_font->getOffset().x * scale], the left edge of every line. *)
Definition lineStart (f : Font) (t : Text) : float :=
  (vx (getOffset f) * scale t)%f32.

Definition startX (f : Font) (t : Text) : float :=
  (F32.zero + vx (getOffset f) * scale t)%f32.
Definition startY (f : Font) (t : Text) : float :=
  (F32.of_Z (m_characterSize t) + vy (getOffset f) * scale t)%f32.

Definition singleLineMode (t : Text) : bool := m_overflow t =? 0.

(** The two statements after [availableWidth = max()], on the members
    as they are when the statements run. *)
Definition availableWidth (t : Text) : float :=
  let availableWidth := F32.FLT_MAX in
  let availableWidth :=
    if (F32.zero <? vx (m_max_size t))%f32 then vx (m_max_size t) else availableWidth in
  if (F32.zero <? width (m_bounds t))%f32 && (width (m_bounds t) <? availableWidth)%f32
  then width (m_bounds t) else availableWidth.

Definition availableHeight (t : Text) : float :=
  let availableHeight := F32.FLT_MAX in
  let availableHeight :=
    if (F32.zero <? vy (m_max_size t))%f32 then vy (m_max_size t) else availableHeight in
  if (F32.zero <? height (m_bounds t))%f32 && (height (m_bounds t) <? availableHeight)%f32
  then height (m_bounds t) else availableHeight.

Definition ellipsisWidth (f : Font) (t : Text) : float :=
  (advance (getGlyph f dot (m_characterSize t) (bold t) F32.zero) * F32.of_Z 3)%f32.

Definition initial (f : Font) (t : Text) : Pen :=
  {| x := startX f t; y := startY f t;
     minX := startX f t; minY := startY f t;
     maxX := startX f t; maxY := startY f t;
     prevChar := 0; truncated := false;
     vertices := m_vertices t; outlineVertices := m_outlineVertices t |}.

(** ** Layout: one turn of the character loop *)

(** The emission of one regular character at the pen: the outline quad
    and its box when the outline thickness is not 0, the fill quad and
    its box, then [x = newX]. *)
Definition emit (f : Font) (t : Text) (curChar : Z) (newX : float) (s : Pen) : Pen :=
  let glyph := getGlyph f curChar (m_characterSize t) (bold t) F32.zero in
  let s :=
    if F32.neqb (m_outlineThickness t) F32.zero then
      let outlineGlyph :=
        getGlyph f curChar (m_characterSize t) (bold t) (m_outlineThickness t) in
      let s :=
        set_pen_outlineVertices
          (addGlyphQuad (outlineVertices s) (m_textureSize t)
             {| vx := x s; vy := y s |} (m_outlineColor t) outlineGlyph (italic t)) s in
      let ob := bounds outlineGlyph in
      extend (italic t)
        (left ob - m_outlineThickness t)%f32
        (top ob - m_outlineThickness t)%f32
        (left ob + width ob + m_outlineThickness t)%f32
        (top ob + height ob + m_outlineThickness t)%f32 s
    else s in
  let s :=
    set_pen_vertices
      (addGlyphQuad (vertices s) (m_textureSize t)
         {| vx := x s; vy := y s |} (m_fillColor t) glyph (italic t)) s in
  let gb := bounds glyph in
  let s :=
    extend (italic t) (left gb) (top gb)
      (left gb + width gb)%f32 (top gb + height gb)%f32 s in
  set_x newX s.

(** A blank of the given width in single-line mode, and a space or a tab
    in either mode: the pen moves unless single-line mode is on and the
    move would pass the available width. *)
Definition blank (t : Text) (w : float) (s : Pen) : Pen :=
  let newX := (x s + w)%f32 in
  if negb (singleLineMode t) || (newX <=? availableWidth t)%f32
  then set_x newX s else s.

(** [y += vspace; x = m_font->getOffset().x * scale;]. *)
Definition nextLine (f : Font) (t : Text) (s : Pen) : Pen :=
  set_x (lineStart f t) (set_y (y s + vspace f t)%f32 s).

Definition step (f : Font) (t : Text) (curChar : Z) (s : Pen) : flow :=
  let s :=
    set_x (x s + getKerning f (prevChar s) curChar (m_characterSize t) (bold t))%f32 s in
  let s := set_prevChar curChar s in
  if curChar =? space then Next (blank t (hspace f t) s)
  else if curChar =? tab then Next (blank t (hspace f t * F32.of_Z 4)%f32 s)
  else if curChar =? newline then
    if singleLineMode t then
      let newX := (x s + hspace f t)%f32 in
      Next (if (newX <=? availableWidth t)%f32 then set_x newX s else s)
    else
      let s := nextLine f t s in
      if (availableHeight t <? y s)%f32
      then GotoEllipsis (set_truncated true s)
      else Next s
  else
    let glyph := getGlyph f curChar (m_characterSize t) (bold t) F32.zero in
    let newX := (x s + advance glyph)%f32 in
    let willTruncate :=
      (singleLineMode t && (availableWidth t <? newX + ellipsisWidth f t)%f32)
      || (negb (singleLineMode t) && (availableWidth t <? newX)%f32) in
    if willTruncate then
      if singleLineMode t then
        if (x s + ellipsisWidth f t <=? availableWidth t)%f32
        then GotoEllipsis (set_truncated true s)
        else Break s
      else
        let s := nextLine f t s in
        let newX := (x s + advance glyph)%f32 in
        if (availableHeight t <? y s)%f32
        then GotoEllipsis (set_truncated true s)
        else Next (emit f t curChar newX s)
    else Next (emit f t curChar newX s).

(** The [for] loop over the decoded characters. *)
Fixpoint scan (f : Font) (t : Text) (utf32String : list Z) (s : Pen) : Pen :=
  match utf32String with
  | [] => s
  | curChar :: rest =>
      match step f t curChar s with
      | Next s => scan f t rest s
      | GotoEllipsis s => s
      | Break s => s
      end
  end.

(** ** Layout: after the loop *)

(** One turn of the loop that adds the three dots. *)
Definition addDot (f : Font) (t : Text) (s : Pen) : Pen :=
  let dotGlyph := getGlyph f dot (m_characterSize t) (bold t) F32.zero in
  let s :=
    if F32.neqb (m_outlineThickness t) F32.zero then
      let outlineDotGlyph :=
        getGlyph f dot (m_characterSize t) (bold t) (m_outlineThickness t) in
      set_pen_outlineVertices
        (addGlyphQuad (outlineVertices s) (m_textureSize t)
           {| vx := x s; vy := y s |} (m_outlineColor t) outlineDotGlyph (italic t)) s
    else s in
  let s :=
    set_pen_vertices
      (addGlyphQuad (vertices s) (m_textureSize t)
         {| vx := x s; vy := y s |} (m_fillColor t) dotGlyph (italic t)) s in
  let gb := bounds dotGlyph in
  let s :=
    extend (italic t) (left gb) (top gb)
      (left gb + width gb)%f32 (top gb + height gb)%f32 s in
  set_x (x s + advance dotGlyph)%f32 s.

(** The label [add_ellipsis]. *)
Definition add_ellipsis (f : Font) (t : Text) (s : Pen) : Pen :=
  if truncated s && singleLineMode t
     && (x s + ellipsisWidth f t <=? availableWidth t)%f32
  then addDot f t (addDot f t (addDot f t s))
  else s.

Definition addUnderline (f : Font) (t : Text) (s : Pen) : Pen :=
  if underlined t && (F32.zero <? x s)%f32 then
    let s :=
      set_pen_vertices
        (addLine (vertices s) (m_textureSize t) (x s) (y s) (m_fillColor t)
           (underlineOffset f t) (underlineThickness f t) F32.zero) s in
    if F32.neqb (m_outlineThickness t) F32.zero then
      set_pen_outlineVertices
        (addLine (outlineVertices s) (m_textureSize t) (x s) (y s) (m_outlineColor t)
           (underlineOffset f t) (underlineThickness f t) (m_outlineThickness t)) s
    else s
  else s.

Definition strikeThroughOffset (f : Font) (t : Text) : float :=
  let xBounds := bounds (getGlyph f letter_x (m_characterSize t) (bold t) F32.zero) in
  (top xBounds + height xBounds / F32.of_Z 2)%f32.

Definition addStrikeThrough (f : Font) (t : Text) (s : Pen) : Pen :=
  if strikeThrough t && (F32.zero <? x s)%f32 then
    let s :=
      set_pen_vertices
        (addLine (vertices s) (m_textureSize t) (x s) (y s) (m_fillColor t)
           (strikeThroughOffset f t) (underlineThickness f t) F32.zero) s in
    if F32.neqb (m_outlineThickness t) F32.zero then
      set_pen_outlineVertices
        (addLine (outlineVertices s) (m_textureSize t) (x s) (y s) (m_outlineColor t)
           (strikeThroughOffset f t) (underlineThickness f t) (m_outlineThickness t)) s
    else s
  else s.

(** The last assignments: the buffers, [m_bounds] and [m_size]. *)
Definition publish (s : Pen) (t : Text) : Text :=
  let bounds :=
    {| left := minX s; top := minY s;
       width := (maxX s - minX s)%f32; height := (maxY s - minY s)%f32 |} in
  set_size {| vx := width bounds; vy := height bounds |}
    (set_bounds bounds
       (set_outlineVertices (outlineVertices s) (set_vertices (vertices s) t))).

(** The three clearing statements. *)
Definition clear (t : Text) : Text :=
  set_bounds FloatRect0 (set_outlineVertices [] (set_vertices [] t)).

(** Everything from [add_ellipsis] to the end. *)
Definition finish (f : Font) (t : Text) (s : Pen) : Pen :=
  addStrikeThrough f t (addUnderline f t (add_ellipsis f t s)).

Definition ensureGeometryUpdate (t : Text) : result :=
  if negb (m_geometryNeedUpdate t) then Ok t
  else
    let t := set_geometryNeedUpdate false t in
    match m_font t with
    | None => Ok t
    | Some p =>
        if String.eqb (m_string t) EmptyString then Ok t
        else
          let f := font_at p in
          let t := clear t in
          match from_bytes (m_string t) with
          | None => RangeError t
          | Some utf32String =>
              Ok (publish (finish f t (scan f t utf32String (initial f t))) t)
          end
    end.

(** [getLocalBounds] and [getSize]: the update, then the member read in
    the state it left; the error of the converter is not caught. *)
Definition getLocalBounds (t : Text) : answer FloatRect :=
  match ensureGeometryUpdate t with
  | Ok t => Returned t (m_bounds t)
  | RangeError t => Raised t
  end.


(** ** Position query *)

(** One turn of the loop of [findCharacterPos], on the position and the
    previous character. *)
Definition advancePos (f : Font) (t : Text) (acc : Vector2f * Z) (curChar : Z)
    : Vector2f * Z :=
  let '(position, prevChar) := acc in
  let px :=
    (vx position + getKerning f prevChar curChar (m_characterSize t) (bold t))%f32 in
  let p :=
    if curChar =? space then {| vx := (px + hspace f t)%f32; vy := vy position |}
    else if curChar =? tab then
      {| vx := (px + hspace f t * F32.of_Z 4)%f32; vy := vy position |}
    else if curChar =? newline then
      {| vx := F32.zero; vy := (vy position + vspace f t)%f32 |}
    else
      {| vx := (px + advance (getGlyph f curChar (m_characterSize t) (bold t) F32.zero))%f32;
         vy := vy position |} in
  (p, curChar).

(** [None] is the converter's [std::range_error]. *)
Definition findCharacterPos (index : nat) (t : Text) : option Vector2f :=
  match m_font t with
  | None => Some Vector2f0
  | Some p =>
      match from_bytes (m_string t) with
      | None => None
      | Some utf32String =>
          let index :=
            if (length utf32String <? index)%nat then length utf32String else index in
          let position :=
            fst (fold_left (advancePos (font_at p) t) (firstn index utf32String)
                   (Vector2f0, 0)) in
          Some (transformPoint (getTransform t) position)
      end
  end.

End TextEntity.

(** ** A concrete runtime for the examples

    A UTF-8 decoder, a fixed-width font at address 1 that can be
    outlined, bitmap fonts everywhere else, 16 as the default character
    size, and no children below the text. *)
Module Demo.

Definition continuation (b : Z) : bool := (128 <=? b) && (b <? 192).

Fixpoint utf8 (bytes : list Z) : option (list Z) :=
  match bytes with
  | [] => Some []
  | b0 :: rest =>
      if b0 <? 128 then option_map (cons b0) (utf8 rest)
      else if (194 <=? b0) && (b0 <? 224) then
        match rest with
        | b1 :: rest =>
            if continuation b1
            then option_map (cons ((b0 - 192) * 64 + (b1 - 128))) (utf8 rest)
            else None
        | _ => None
        end
      else if (224 <=? b0) && (b0 <? 240) then
        match rest with
        | b1 :: b2 :: rest =>
            let c := (b0 - 224) * 4096 + (b1 - 128) * 64 + (b2 - 128) in
            if continuation b1 && continuation b2 && (2048 <=? c)
            then option_map (cons c) (utf8 rest)
            else None
        | _ => None
        end
      else if (240 <=? b0) && (b0 <? 245) then
        match rest with
        | b1 :: b2 :: b3 :: rest =>
            let c :=
              (b0 - 240) * 262144 + (b1 - 128) * 4096 + (b2 - 128) * 64 + (b3 - 128) in
            if continuation b1 && continuation b2 && continuation b3
               && (65536 <=? c) && (c <=? 1114111)
            then option_map (cons c) (utf8 rest)
            else None
        | _ => None
        end
      else None
  end.

Definition bytes_of (s : string) : list Z :=
  map (fun c => Z.of_N (N_of_ascii c)) (list_ascii_of_string s).

(** Every glyph is 8 wide and 12 high above the baseline and advances the
    pen by 10; an outlined glyph grows by the thickness on each side. *)
Definition cell (outlineThickness : float) : Glyph :=
  {| advance := F32.of_Z 10;
     bounds :=
       {| left := F32.opp outlineThickness;
          top := (F32.of_Z (-12) - outlineThickness)%f32;
          width := (F32.of_Z 8 + outlineThickness + outlineThickness)%f32;
          height := (F32.of_Z 12 + outlineThickness + outlineThickness)%f32 |};
     textureRect := {| ileft := 1; itop := 1; iwidth := 8; iheight := 12 |} |}.

Definition mono (bitmap : bool) : Font :=
  {| getGlyph := fun _ _ _ outlineThickness => cell outlineThickness;
     getKerning := fun _ _ _ _ => F32.zero;
     getLineSpacing := fun _ => F32.of_Z 20;
     getUnderlinePosition := fun _ => F32.of_Z 2;
     getUnderlineThickness := fun _ => F32.of_Z 1;
     getOffset := Vector2f0;
     isBmFont := bitmap |}.

#[export] Instance runtime : Runtime :=
  {| from_bytes := fun s => utf8 (bytes_of s);
     font_at := fun p => mono (negb (Pos.eqb p 1));
     C2D_DEFAULT_CHAR_SIZE := F32.of_Z 16;
     C2DObject_setAlpha := fun _ _ t => t |}.

Definition identity : Transform := {| transformPoint := fun p => p |}.

Definition white : Color := {| r := 255; g := 255; b := 255; a := 255 |}.
Definition black : Color := {| r := 0; g := 0; b := 0; a := 255 |}.
Definition red : Color := {| r := 255; g := 0; b := 0; a := 255 |}.

(** A text as [Text(string, characterSize, font)] builds it, with the
    texture size that [onUpdate] stores before the first layout. *)
Definition new (s : string) (characterSize : Z) (font : positive) : Text :=
  {| m_string := s; m_font := Some font; m_characterSize := characterSize;
     m_style := Regular; m_overflow := Clamp;
     m_fillColor := white; m_outlineColor := black;
     m_outlineThickness := F32.zero;
     m_vertices := []; m_outlineVertices := [];
     m_bounds := FloatRect0; m_size := Vector2f0; m_max_size := Vector2f0;
     m_line_spacing := 0; m_textureSize := {| ix := 256; iy := 256 |};
     m_geometryNeedUpdate := true; getTransform := identity |}.

End Demo.

(** ** Reference walks

    The pen of single-line mode followed on its own, without geometry:
    [emitted] counts the regular characters placed before the walk ends,
    and [stop] is the pen x at the truncation point, the first regular
    character whose advance together with three dots passes the available
    width ([None] when the text ends first). *)
Record Walk := { emitted : nat; stop : option float }.

Fixpoint clampWalk {rt : Runtime} (f : Font) (t : Text) (utf32String : list Z)
    (x : float) (prevChar : Z) : Walk :=
  match utf32String with
  | [] => {| emitted := 0; stop := None |}
  | curChar :: rest =>
      let x := (x + getKerning f prevChar curChar (m_characterSize t) (bold t))%f32 in
      if (curChar =? space) || (curChar =? tab) || (curChar =? newline) then
        let w := if curChar =? tab then (hspace f t * F32.of_Z 4)%f32 else hspace f t in
        clampWalk f t rest
          (if (x + w <=? availableWidth t)%f32 then (x + w)%f32 else x) curChar
      else
        let newX :=
          (x + advance (getGlyph f curChar (m_characterSize t) (bold t) F32.zero))%f32 in
        if (availableWidth t <? newX + ellipsisWidth f t)%f32
        then {| emitted := 0; stop := Some x |}
        else
          let w := clampWalk f t rest newX curChar in
          {| emitted := S (emitted w); stop := stop w |}
  end.

(** The pen of the position query, rule by rule: kerning first, then a
    space advance, four of them for a tab, a new line at x = 0, or the
    advance of the glyph. *)
Fixpoint penWalk {rt : Runtime} (f : Font) (t : Text) (utf32String : list Z)
    (px py : float) (prevChar : Z) : Vector2f :=
  match utf32String with
  | [] => {| vx := px; vy := py |}
  | curChar :: rest =>
      let kx := (px + getKerning f prevChar curChar (m_characterSize t) (bold t))%f32 in
      if curChar =? space then penWalk f t rest (kx + hspace f t)%f32 py curChar
      else if curChar =? tab then
        penWalk f t rest (kx + hspace f t * F32.of_Z 4)%f32 py curChar
      else if curChar =? newline then
        penWalk f t rest F32.zero (py + vspace f t)%f32 curChar
      else
        penWalk f t rest
          (kx + advance (getGlyph f curChar (m_characterSize t) (bold t) F32.zero))%f32
          py curChar
  end.

(** The bars of the decoration step, on their own. *)
Definition underlineBar {rt : Runtime} (f : Font) (t : Text) (s : Pen) : VertexArray :=
  addLine [] (m_textureSize t) (x s) (y s) (m_fillColor t)
    (underlineOffset f t) (underlineThickness f t) F32.zero.

Definition strikeThroughBar {rt : Runtime} (f : Font) (t : Text) (s : Pen) : VertexArray :=
  addLine [] (m_textureSize t) (x s) (y s) (m_fillColor t)
    (strikeThroughOffset f t) (underlineThickness f t) F32.zero.

(** The decoration of each buffer for a final pen: the underline bar,
    then the strikethrough bar, each present when its style bit is set
    and the pen x is above 0; the outline buffer gets them, grown by the
    outline thickness, when the thickness is not 0. *)
Definition decoration {rt : Runtime} (f : Font) (t : Text) (pen : Pen) : VertexArray :=
  (if underlined t && (F32.zero <? x pen)%f32 then underlineBar f t pen else [])
  ++ (if strikeThrough t && (F32.zero <? x pen)%f32 then strikeThroughBar f t pen else []).

Definition outlineDecoration {rt : Runtime} (f : Font) (t : Text) (pen : Pen)
    : VertexArray :=
  if F32.neqb (m_outlineThickness t) F32.zero then
    (if underlined t && (F32.zero <? x pen)%f32 then
       addLine [] (m_textureSize t) (x pen) (y pen) (m_outlineColor t)
         (underlineOffset f t) (underlineThickness f t) (m_outlineThickness t)
     else [])
    ++ (if strikeThrough t && (F32.zero <? x pen)%f32 then
          addLine [] (m_textureSize t) (x pen) (y pen) (m_outlineColor t)
            (strikeThroughOffset f t) (underlineThickness f t) (m_outlineThickness t)
        else [])
  else [].

(** The three quads of an ellipsis that starts at the pen of [s], for
    one buffer: each dot stands one dot advance after the one before. *)
Definition ellipsisQuads {rt : Runtime} (f : Font) (t : Text) (color : Color)
    (glyph : Glyph) (s : Pen) : VertexArray :=
  let step := advance (getGlyph f dot (m_characterSize t) (bold t) F32.zero) in
  addGlyphQuad [] (m_textureSize t) {| vx := x s; vy := y s |} color glyph (italic t)
  ++ addGlyphQuad [] (m_textureSize t)
       {| vx := (x s + step)%f32; vy := y s |} color glyph (italic t)
  ++ addGlyphQuad [] (m_textureSize t)
       {| vx := (x s + step + step)%f32; vy := y s |} color glyph (italic t).

(** Whether the three dots fit at the truncation point of a walk. *)
Definition ellipsisFits {rt : Runtime} (f : Font) (t : Text) (w : Walk) : bool :=
  match stop w with
  | Some x => (x + ellipsisWidth f t <=? availableWidth t)%f32
  | None => false
  end.

(** The state in which the layout proper runs: flag cleared, geometry
    cleared. *)
Definition entered (t : Text) : Text := clear (set_geometryNeedUpdate false t).

(** ** Accessors, and the setter of the box that also sets the size *)

Definition getString (t : Text) : string := m_string t.
Definition getFont (t : Text) : FontPtr := m_font t.
Definition getCharacterSize (t : Text) : Z := m_characterSize t.
Definition getStyle (t : Text) : Z := m_style t.
Definition getOverflow (t : Text) : Z := m_overflow t.
Definition getFillColor (t : Text) : Color := m_fillColor t.
Definition getOutlineColor (t : Text) : Color := m_outlineColor t.
Definition getOutlineThickness (t : Text) : float := m_outlineThickness t.

(** [(unsigned int) v] for a 32-bit [unsigned int]: the value is
    truncated toward zero; the conversion is undefined, [None], when the
    truncated value is not below 2^32 or is negative, and for NaN and the
    infinities. *)
Definition to_unsigned (v : float) : option Z :=
  match v with
  | S754_zero _ => Some 0
  | S754_finite s m e =>
      let q := if 0 <=? e then Z.shiftl (Zpos m) e else Z.shiftr (Zpos m) (- e) in
      if s then (if q =? 0 then Some 0 else None)
      else if q <? 2 ^ 32 then Some q else None
  | _ => None
  end.

(** [setSize(width, height)]. *)
Definition setSize (width height : float) (t : Text) : option Text :=
  let t := set_max_size {| vx := width; vy := height |} t in
  if (F32.zero <? height)%f32 then
    match to_unsigned height with
    | Some size => Some (set_geometryNeedUpdate true (setCharacterSize size t))
    | None => None
    end
  else Some (set_geometryNeedUpdate true t).

(** ** Notions used by the properties of the whole entity *)


(** [grows t k s s']: from [s] to [s'] the fill buffer got [k] quads, and
    the outline buffer as many when the outline thickness of [t] is not
    0, none when it is 0. *)
Definition grows (t : Text) (k : nat) (s s' : Pen) : Prop :=
  length (vertices s') = (length (vertices s) + 6 * k)%nat /\
  length (outlineVertices s') =
    (length (outlineVertices s)
     + if F32.neqb (m_outlineThickness t) F32.zero then 6 * k else 0)%nat.

(** The buffers of a pen with every vertex given the colour of its
    buffer. *)
Definition repaint (fill outline : Color) (s : Pen) : Pen :=
  set_pen_outlineVertices (recolor outline (outlineVertices s))
    (set_pen_vertices (recolor fill (vertices s)) s).

Definition flow_map (g : Pen -> Pen) (r : flow) : flow :=
  match r with
  | Next s => Next (g s)
  | GotoEllipsis s => GotoEllipsis (g s)
  | Break s => Break (g s)
  end.

Definition flow_pen (r : flow) : Pen :=
  match r with Next s | GotoEllipsis s | Break s => s end.

(** Both colours of a text replaced. *)
Definition set_colors (fill outline : Color) (t : Text) : Text :=
  set_outlineColor outline (set_fillColor fill t).

(** More texts of the demo runtime. *)
Module Cases.
Import Demo.
Local Open Scope string_scope.

(** A string of the single byte 255, which no UTF-8 decoder accepts. *)
Definition broken : string := String (ascii_of_nat 255) EmptyString.

(** "a", a newline, "b": in Clamp mode, and in Wrap mode in a box 20
    high, which the second line passes. *)
Definition ab_lines : string := String "a" (String "010" (String "b" EmptyString)).
Definition clamped_lines : Text := new ab_lines 16 1.
Definition cut_lines : Text :=
  setSizeMax F32.zero (F32.of_Z 20) (setOverflow Wrap (new ab_lines 16 1)).

(** "ab" not yet laid out, and laid out. *)
Definition fresh_ab : Text := new "ab" 16 1.
Definition laid_ab : Text := state_of (ensureGeometryUpdate (new "ab" 16 1)).

(** "a" laid out, then emptied. *)
Definition emptied : Text :=
  setString "" (state_of (ensureGeometryUpdate (new "a" 16 1))).

(** "ab" with an outline of thickness 2. *)
Definition outlined_ab : Text :=
  set_outlineThickness (F32.of_Z 2) (new "ab" 16 1).

(** "ab" on the bitmap font at address 2. *)
Definition bitmap_ab : Text := new "ab" 16 2.

(** "ab" given an outline of thickness 2 on the font at address 1, then
    the bitmap font at address 2: [setOutlineThickness(2)], then
    [setFont]. *)
Definition bitmap_outlined : Text :=
  match setOutlineThickness (F32.of_Z 2) (new "ab" 16 1) with
  | Some t => setFont (Some 2%positive) t
  | None => new "ab" 16 1
  end.

(** "ab" underlined and laid out; then the style set back to Regular
    and the string emptied. *)
Definition underlined_then_emptied : Text :=
  setString ""
    (setStyle Regular
       (state_of (ensureGeometryUpdate (setStyle Underlined (new "ab" 16 1))))).

End Cases.

(** ** Examples of the demo runtime *)

Module Examples.
Import Demo.
Local Open Scope string_scope.

Definition laid (t : Text) : Text := state_of (ensureGeometryUpdate t).

Definition two_lines : string := String "a" (String "010" (String "b" EmptyString)).

(** "Hello World" in a box 60 wide, and its characters. *)
Definition hello : Text := setSizeMax (F32.of_Z 60) F32.zero (new "Hello World" 16 1).
Definition hello_utf32 : list Z := [72; 101; 108; 108; 111; 32; 87; 111; 114; 108; 100].

Definition underlined_ab : Text := setStyle Underlined (new "ab" 16 1).

End Examples.

(** * Properties *)

(** ** Setters *)

Lemma Color_eqb_eq (c d : Color) : Color_eqb c d = true <-> c = d.
Proof.
  destruct c as [r1 g1 b1 a1], d as [r2 g2 b2 a2]; unfold Color_eqb; simpl.
  rewrite !andb_true_iff, !Z.eqb_eq. split.
  - intros [[[-> ->] ->] ->]. reflexivity.
  - intros H. injection H as -> -> -> ->. tauto.
Qed.

Lemma Color_eqb_refl (c : Color) : Color_eqb c c = true.
Proof. apply Color_eqb_eq. reflexivity. Qed.

Lemma Color_eqb_neq (c d : Color) : c <> d -> Color_eqb c d = false.
Proof.
  intros H. destruct (Color_eqb c d) eqn:E; [|reflexivity].
  apply Color_eqb_eq in E. contradiction.
Qed.

Lemma FontPtr_eqb_refl (p : FontPtr) : FontPtr_eqb p p = true.
Proof. destruct p; simpl; [apply Pos.eqb_refl | reflexivity]. Qed.

Section Setters.

Context {rt : Runtime}.

Lemma recolor_length (c : Color) (vs : VertexArray) :
  length (recolor c vs) = length vs.
Proof. apply length_map. Qed.

Lemma recolor_position (c : Color) (vs : VertexArray) :
  map position (recolor c vs) = map position vs.
Proof. unfold recolor. rewrite map_map. reflexivity. Qed.

Lemma recolor_texCoords (c : Color) (vs : VertexArray) :
  map texCoords (recolor c vs) = map texCoords vs.
Proof. unfold recolor. rewrite map_map. reflexivity. Qed.

Lemma recolor_color (c : Color) (vs : VertexArray) :
  map color (recolor c vs) = repeat c (length vs).
Proof. induction vs as [|v vs IH]; simpl; [reflexivity | f_equal; exact IH]. Qed.

(** The setters that compare first: with the current value nothing
    changes. *)
Lemma compare_first_setters_same_value (t : Text) :
  setString (m_string t) t = t /\
  setFont (m_font t) t = t /\
  setCharacterSize (m_characterSize t) t = t /\
  setStyle (m_style t) t = t /\
  setOverflow (m_overflow t) t = t /\
  setFillColor (m_fillColor t) t = t.
Proof.
  unfold setString, setFont, setCharacterSize, setStyle, setOverflow, setFillColor.
  rewrite String.eqb_refl, FontPtr_eqb_refl, !Z.eqb_refl, Color_eqb_refl.
  simpl. repeat split.
Qed.

Lemma setOutlineThickness_same_value (t : Text) (p : positive) (thickness : float) :
  m_font t = Some p ->
  F32.eqb thickness (m_outlineThickness t) = true ->
  setOutlineThickness thickness t = Some t.
Proof.
  intros Hf He. unfold setOutlineThickness, F32.neqb. rewrite Hf, He.
  rewrite andb_false_r. reflexivity.
Qed.

(** C5 (the code departs from it): [setSizeMax] with the box the text
    already has stores the same box and sets the dirty flag all the same;
    it does not compare, unlike the other setters. *)
Theorem setSizeMax_same_value_sets_dirty (t : Text) :
  m_max_size (setSizeMax (vx (m_max_size t)) (vy (m_max_size t)) t) = m_max_size t /\
  m_geometryNeedUpdate (setSizeMax (vx (m_max_size t)) (vy (m_max_size t)) t) = true.
Proof.
  unfold setSizeMax. simpl. split; [|reflexivity].
  destruct (m_max_size t); reflexivity.
Qed.

(** [setLineSpacingModifier] stores the modifier and leaves the dirty
    flag as it was. *)
Lemma setLineSpacingModifier_flag (size : Z) (t : Text) :
  m_line_spacing (setLineSpacingModifier size t) = size /\
  m_geometryNeedUpdate (setLineSpacingModifier size t) = m_geometryNeedUpdate t.
Proof. split; reflexivity. Qed.

(** C10: [setAlpha] with the alpha the fill colour already has, not
    recursive, returns the state it was given, whatever the alpha of the
    outline colour is. *)
Theorem setAlpha_same_alpha_unchanged (t : Text) :
  setAlpha (a (m_fillColor t)) false t = Some t.
Proof. unfold setAlpha. rewrite Z.eqb_refl. reflexivity. Qed.

(** C7, as amended: on up-to-date geometry, [setFillColor] with a
    different colour keeps the number of vertices, every position and
    every texture coordinate of the fill buffer, gives every fill vertex
    the new colour, and leaves the outline buffer and the clear dirty
    flag alone, whatever the font.  [setOutlineColor] with a different
    colour does the same to the outline buffer on a font that is not a
    bitmap font; on a bitmap font it returns the state as it was: no
    colour is rewritten. *)
Theorem recolor_keeps_geometry (t : Text) (fill outline : Color) :
  m_geometryNeedUpdate t = false ->
  fill <> m_fillColor t ->
  outline <> m_outlineColor t ->
  (length (m_vertices (setFillColor fill t)) = length (m_vertices t) /\
   map position (m_vertices (setFillColor fill t)) = map position (m_vertices t) /\
   map texCoords (m_vertices (setFillColor fill t)) = map texCoords (m_vertices t) /\
   map color (m_vertices (setFillColor fill t)) = repeat fill (length (m_vertices t)) /\
   m_fillColor (setFillColor fill t) = fill /\
   m_outlineVertices (setFillColor fill t) = m_outlineVertices t /\
   m_geometryNeedUpdate (setFillColor fill t) = false) /\
  (forall p : positive,
     m_font t = Some p ->
     isBmFont (font_at p) = false ->
     exists t',
       setOutlineColor outline t = Some t' /\
       length (m_outlineVertices t') = length (m_outlineVertices t) /\
       map position (m_outlineVertices t') = map position (m_outlineVertices t) /\
       map texCoords (m_outlineVertices t') = map texCoords (m_outlineVertices t) /\
       map color (m_outlineVertices t') = repeat outline (length (m_outlineVertices t)) /\
       m_outlineColor t' = outline /\
       m_vertices t' = m_vertices t /\
       m_geometryNeedUpdate t' = false) /\
  (forall p : positive,
     m_font t = Some p ->
     isBmFont (font_at p) = true ->
     setOutlineColor outline t = Some t).
Proof.
  intros Hclean Hfill Houtline. split; [|split].
  - unfold setFillColor. rewrite (Color_eqb_neq _ _ Hfill). simpl.
    rewrite Hclean. simpl.
    rewrite recolor_length, recolor_position, recolor_texCoords, recolor_color.
    repeat split; assumption.
  - intros p Hfont Hbm. unfold setOutlineColor.
    rewrite Hfont, Hbm, (Color_eqb_neq _ _ Houtline). simpl.
    rewrite Hclean. simpl. eexists. split; [reflexivity|]. simpl.
    rewrite recolor_length, recolor_position, recolor_texCoords, recolor_color.
    repeat split; assumption.
  - intros p Hfont Hbm. unfold setOutlineColor. rewrite Hfont, Hbm. reflexivity.
Qed.

End Setters.

(** ** The dirty flag and the early returns of [ensureGeometryUpdate] *)

Section Laziness.

Context {rt : Runtime}.

Lemma ensureGeometryUpdate_clean (t : Text) :
  m_geometryNeedUpdate t = false -> ensureGeometryUpdate t = Ok t.
Proof. intros H. unfold ensureGeometryUpdate. rewrite H. reflexivity. Qed.

Lemma ensureGeometryUpdate_clears_flag (t : Text) :
  m_geometryNeedUpdate (state_of (ensureGeometryUpdate t)) = false.
Proof.
  unfold ensureGeometryUpdate.
  destruct (m_geometryNeedUpdate t) eqn:Hd; simpl; [|exact Hd].
  destruct (m_font t); simpl; [|reflexivity].
  destruct (String.eqb (m_string t) EmptyString); simpl; [reflexivity|].
  destruct (from_bytes (m_string t)); reflexivity.
Qed.

(** With the flag set and no font or no character, the call returns right
    after clearing the flag: no other member is written. *)
Lemma ensureGeometryUpdate_early_return (t : Text) :
  m_geometryNeedUpdate t = true ->
  m_font t = None \/ m_string t = EmptyString ->
  ensureGeometryUpdate t = Ok (set_geometryNeedUpdate false t).
Proof.
  intros Hd H. unfold ensureGeometryUpdate. rewrite Hd. simpl.
  destruct (m_font t) as [p|]; [|reflexivity].
  destruct H as [H|H]; [discriminate|]. rewrite H. reflexivity.
Qed.

(** With the flag set, a font and a string that is not empty, the call
    clears the geometry and lays the decoded characters out. *)
Lemma ensureGeometryUpdate_layout (t : Text) (p : positive) (utf32String : list Z) :
  m_geometryNeedUpdate t = true ->
  m_font t = Some p ->
  m_string t <> EmptyString ->
  from_bytes (m_string t) = Some utf32String ->
  ensureGeometryUpdate t =
    Ok (publish
          (finish (font_at p) (entered t)
             (scan (font_at p) (entered t) utf32String (initial (font_at p) (entered t))))
          (entered t)).
Proof.
  intros Hd Hf Hs Hu. unfold ensureGeometryUpdate. rewrite Hd. simpl.
  rewrite Hf. apply String.eqb_neq in Hs. rewrite Hs. simpl. rewrite Hu.
  reflexivity.
Qed.

(** C4: a second call of [ensureGeometryUpdate] right after a first one
    finds the flag clear and returns the state unchanged: both vertex
    buffers and the bounds are those of the first call. *)
Theorem ensureGeometryUpdate_idempotent (t : Text) :
  ensureGeometryUpdate (state_of (ensureGeometryUpdate t)) =
    Ok (state_of (ensureGeometryUpdate t)) /\
  m_vertices (state_of (ensureGeometryUpdate (state_of (ensureGeometryUpdate t)))) =
    m_vertices (state_of (ensureGeometryUpdate t)) /\
  m_outlineVertices (state_of (ensureGeometryUpdate (state_of (ensureGeometryUpdate t)))) =
    m_outlineVertices (state_of (ensureGeometryUpdate t)) /\
  m_bounds (state_of (ensureGeometryUpdate (state_of (ensureGeometryUpdate t)))) =
    m_bounds (state_of (ensureGeometryUpdate t)).
Proof.
  rewrite (ensureGeometryUpdate_clean _ (ensureGeometryUpdate_clears_flag t)).
  simpl. repeat split.
Qed.

(** The bounds that the width and height limits read are the cleared
    ones, so the limits come from the max-size box alone. *)
Lemma availableWidth_entered (t : Text) :
  availableWidth (entered t) =
    if (F32.zero <? vx (m_max_size t))%f32 then vx (m_max_size t) else F32.FLT_MAX.
Proof. reflexivity. Qed.

Lemma availableHeight_entered (t : Text) :
  availableHeight (entered t) =
    if (F32.zero <? vy (m_max_size t))%f32 then vy (m_max_size t) else F32.FLT_MAX.
Proof. reflexivity. Qed.

Lemma entered_forgets_bounds (bounds : FloatRect) (t : Text) :
  entered (set_bounds bounds t) = entered t.
Proof. reflexivity. Qed.

End Laziness.

Module Failures.
Import Demo Examples.
Local Open Scope string_scope.

(** C2 (the code departs from it): "a" is laid out, then the string is
    set to the empty one; the next [ensureGeometryUpdate] clears the flag
    and returns before the clearing statements, so the six vertices and
    the bounds of "a" stay. *)
Theorem emptied_string_keeps_geometry :
  let t0 := laid (new "a" 16 1) in
  let t1 := setString "" t0 in
  let t2 := laid t1 in
  m_geometryNeedUpdate t1 = true /\
  m_string t1 = "" /\
  m_geometryNeedUpdate t2 = false /\
  length (m_vertices t2) = 6%nat /\
  m_vertices t2 = m_vertices t0 /\
  m_bounds t2 = m_bounds t0 /\
  m_bounds t2 <> FloatRect0.
Proof. vm_compute. repeat split. discriminate. Qed.

(** C6 (the code departs from it): after a layout of two lines in Wrap
    mode, [setLineSpacingModifier 5] changes the modifier and leaves the
    flag clear, so [getLocalBounds] still answers the bounds computed
    with the old modifier; a layout with the new modifier has other
    bounds. *)
Theorem line_spacing_change_is_not_seen :
  let t0 := laid (setOverflow Wrap (new two_lines 16 1)) in
  let t1 := setLineSpacingModifier 5 t0 in
  m_line_spacing t0 = 0 /\
  m_line_spacing t1 = 5 /\
  m_geometryNeedUpdate t1 = false /\
  getLocalBounds t1 = Returned t1 (m_bounds t0) /\
  m_bounds (laid (set_geometryNeedUpdate true t1)) <> m_bounds t0.
Proof. vm_compute. repeat split. discriminate. Qed.

(** C9 (the code departs from it): "abcde" is laid out in a box 200 wide
    and has bounds 48 wide; the string then grows.  On the state before
    the call the limit that takes the previous bounds into account is 48,
    but the call clears the bounds before it computes the limit: it uses
    200 and places all ten glyphs. *)
Theorem previous_bounds_do_not_clamp :
  let t0 := laid (setSizeMax (F32.of_Z 200) F32.zero (new "abcde" 16 1)) in
  let t1 := setString "abcdefghij" t0 in
  width (m_bounds t1) = F32.of_Z 48 /\
  availableWidth t1 = F32.of_Z 48 /\
  availableWidth (entered t1) = F32.of_Z 200 /\
  length (m_vertices (laid t1)) = 60%nat /\
  laid t1 = laid (set_bounds FloatRect0 t1).
Proof. vm_compute. repeat split. Qed.

End Failures.

(** ** The geometry builders append six vertices *)

Lemma addGlyphQuad_app (vertices : VertexArray) texSize position color glyph italic :
  addGlyphQuad vertices texSize position color glyph italic =
    vertices ++ addGlyphQuad [] texSize position color glyph italic.
Proof. unfold addGlyphQuad, append. rewrite <- !app_assoc. reflexivity. Qed.

Lemma addGlyphQuad_length texSize position color glyph italic :
  length (addGlyphQuad [] texSize position color glyph italic) = 6%nat.
Proof. reflexivity. Qed.

Lemma addLine_app (vertices : VertexArray) texSize lineLength lineTop color offset
    thickness outlineThickness :
  addLine vertices texSize lineLength lineTop color offset thickness outlineThickness =
    vertices ++ addLine [] texSize lineLength lineTop color offset thickness outlineThickness.
Proof. unfold addLine, append. rewrite <- !app_assoc. reflexivity. Qed.

Lemma addLine_length texSize lineLength lineTop color offset thickness outlineThickness :
  length (addLine [] texSize lineLength lineTop color offset thickness outlineThickness)
    = 6%nat.
Proof. reflexivity. Qed.

(** The x coordinates of a bar: its left edge three times, its right
    edge three times, in the order of the two triangles. *)
Lemma addLine_span texSize lineLength lineTop color offset thickness outlineThickness :
  map (fun v => vx (position v))
    (addLine [] texSize lineLength lineTop color offset thickness outlineThickness) =
  let l := F32.opp outlineThickness in
  let r := (lineLength + outlineThickness)%f32 in
  [l; r; l; l; r; r].
Proof. reflexivity. Qed.

(** A positive length is not changed by the addition of a zero outline
    thickness. *)
Lemma positive_plus_zero (v : float) :
  (F32.zero <? v)%f32 = true -> (v + F32.zero)%f32 = v.
Proof. destruct v as [s|s| |s m e]; try discriminate; reflexivity. Qed.

(** ** The stages of the layout, one by one *)

Section Stages.

Context {rt : Runtime}.
Variables (f : Font) (t : Text).

Lemma emit_pen (curChar : Z) (newX : float) (s : Pen) :
  x (emit f t curChar newX s) = newX /\
  y (emit f t curChar newX s) = y s /\
  prevChar (emit f t curChar newX s) = prevChar s /\
  truncated (emit f t curChar newX s) = truncated s.
Proof. unfold emit. destruct (F32.neqb (m_outlineThickness t) F32.zero); repeat split. Qed.

Lemma emit_vertices (curChar : Z) (newX : float) (s : Pen) :
  length (vertices (emit f t curChar newX s)) = (length (vertices s) + 6)%nat /\
  length (outlineVertices (emit f t curChar newX s)) =
    (length (outlineVertices s)
     + if F32.neqb (m_outlineThickness t) F32.zero then 6 else 0)%nat.
Proof.
  unfold emit. destruct (F32.neqb (m_outlineThickness t) F32.zero); cbn [vertices
    outlineVertices set_x extend set_pen_vertices set_pen_outlineVertices];
    rewrite 1?(addGlyphQuad_app (vertices s)), 1?(addGlyphQuad_app (outlineVertices s)),
      ?length_app, ?addGlyphQuad_length; split; lia.
Qed.

Lemma addDot_pen (s : Pen) :
  x (addDot f t s) =
    (x s + advance (getGlyph f dot (m_characterSize t) (bold t) F32.zero))%f32 /\
  y (addDot f t s) = y s.
Proof. unfold addDot. destruct (F32.neqb (m_outlineThickness t) F32.zero); split; reflexivity. Qed.

Lemma addDot_vertices (s : Pen) :
  vertices (addDot f t s) =
    vertices s ++
    addGlyphQuad [] (m_textureSize t) {| vx := x s; vy := y s |} (m_fillColor t)
      (getGlyph f dot (m_characterSize t) (bold t) F32.zero) (italic t) /\
  outlineVertices (addDot f t s) =
    outlineVertices s ++
    if F32.neqb (m_outlineThickness t) F32.zero then
      addGlyphQuad [] (m_textureSize t) {| vx := x s; vy := y s |} (m_outlineColor t)
        (getGlyph f dot (m_characterSize t) (bold t) (m_outlineThickness t)) (italic t)
    else [].
Proof.
  unfold addDot. destruct (F32.neqb (m_outlineThickness t) F32.zero);
    cbn [vertices outlineVertices x y set_x extend set_pen_vertices set_pen_outlineVertices].
  - rewrite (addGlyphQuad_app (vertices s)), (addGlyphQuad_app (outlineVertices s)).
    split; reflexivity.
  - rewrite (addGlyphQuad_app (vertices s)), app_nil_r. split; reflexivity.
Qed.

(** The three turns of the ellipsis loop. *)
Lemma three_dots (s : Pen) :
  vertices (addDot f t (addDot f t (addDot f t s))) =
    vertices s ++
    ellipsisQuads f t (m_fillColor t)
      (getGlyph f dot (m_characterSize t) (bold t) F32.zero) s /\
  outlineVertices (addDot f t (addDot f t (addDot f t s))) =
    outlineVertices s ++
    (if F32.neqb (m_outlineThickness t) F32.zero then
       ellipsisQuads f t (m_outlineColor t)
         (getGlyph f dot (m_characterSize t) (bold t) (m_outlineThickness t)) s
     else []).
Proof.
  destruct (addDot_vertices (addDot f t (addDot f t s))) as [V3 O3].
  destruct (addDot_vertices (addDot f t s)) as [V2 O2].
  destruct (addDot_vertices s) as [V1 O1].
  destruct (addDot_pen (addDot f t s)) as [X2 Y2].
  destruct (addDot_pen s) as [X1 Y1].
  rewrite V3, O3, V2, O2, V1, O1, X2, Y2, X1, Y1. unfold ellipsisQuads.
  destruct (F32.neqb (m_outlineThickness t) F32.zero);
    rewrite <- ?app_assoc, ?app_nil_r; split; reflexivity.
Qed.

Lemma ellipsisQuads_length (color : Color) (glyph : Glyph) (s : Pen) :
  length (ellipsisQuads f t color glyph s) = 18%nat.
Proof. reflexivity. Qed.

(** The decoration steps append to the buffers and leave the pen. *)
Lemma addUnderline_pen (s : Pen) :
  x (addUnderline f t s) = x s /\ y (addUnderline f t s) = y s.
Proof.
  unfold addUnderline.
  destruct (underlined t && (F32.zero <? x s)%f32); [|split; reflexivity].
  destruct (F32.neqb (m_outlineThickness t) F32.zero); split; reflexivity.
Qed.

Lemma addUnderline_vertices (s : Pen) :
  vertices (addUnderline f t s) =
    vertices s ++
    if underlined t && (F32.zero <? x s)%f32 then underlineBar f t s else [].
Proof.
  unfold addUnderline, underlineBar.
  destruct (underlined t && (F32.zero <? x s)%f32); [|symmetry; apply app_nil_r].
  destruct (F32.neqb (m_outlineThickness t) F32.zero);
    cbn [vertices set_pen_vertices set_pen_outlineVertices];
    apply addLine_app.
Qed.

Lemma addStrikeThrough_vertices (s : Pen) :
  vertices (addStrikeThrough f t s) =
    vertices s ++
    if strikeThrough t && (F32.zero <? x s)%f32 then strikeThroughBar f t s else [].
Proof.
  unfold addStrikeThrough, strikeThroughBar.
  destruct (strikeThrough t && (F32.zero <? x s)%f32); [|symmetry; apply app_nil_r].
  destruct (F32.neqb (m_outlineThickness t) F32.zero);
    cbn [vertices set_pen_vertices set_pen_outlineVertices];
    apply addLine_app.
Qed.

(** The fill buffer at the end: what the loop and the ellipsis left, the
    underline bar, the strikethrough bar. *)
Lemma finish_vertices (s : Pen) :
  let pen := add_ellipsis f t s in
  vertices (finish f t s) =
    vertices pen
    ++ (if underlined t && (F32.zero <? x pen)%f32 then underlineBar f t pen else [])
    ++ (if strikeThrough t && (F32.zero <? x pen)%f32 then strikeThroughBar f t pen else []).
Proof.
  intros pen. unfold finish. fold pen.
  rewrite addStrikeThrough_vertices, addUnderline_vertices.
  destruct (addUnderline_pen pen) as [X Y].
  unfold strikeThroughBar. rewrite X, Y. rewrite <- app_assoc. reflexivity.
Qed.

Lemma finish_decoration (s : Pen) :
  vertices (finish f t s) =
    vertices (add_ellipsis f t s) ++ decoration f t (add_ellipsis f t s).
Proof. apply finish_vertices. Qed.

Lemma finish_outlineDecoration (s : Pen) :
  outlineVertices (finish f t s) =
    outlineVertices (add_ellipsis f t s) ++ outlineDecoration f t (add_ellipsis f t s).
Proof.
  unfold finish, outlineDecoration. set (pen := add_ellipsis f t s).
  destruct (addUnderline_pen pen) as [X Y].
  unfold addStrikeThrough. rewrite X, Y. unfold addUnderline.
  destruct (F32.neqb (m_outlineThickness t) F32.zero);
    destruct (underlined t && (F32.zero <? x pen)%f32);
    destruct (strikeThrough t && (F32.zero <? x pen)%f32);
    cbn [vertices outlineVertices x y set_pen_vertices set_pen_outlineVertices];
    rewrite ?(addLine_app (addLine _ _ _ _ _ _ _ _)),
      ?(addLine_app (outlineVertices pen)), ?app_nil_r, <- ?app_assoc;
    reflexivity.
Qed.

End Stages.

(** ** Decoration *)

Section Decoration.

Context {rt : Runtime}.

(** On the runs that lay out, the fill buffer ends with the decoration:
    after the glyph and ellipsis quads comes the underline bar exactly
    when the Underlined bit is set and the final pen x is above 0, then
    the strikethrough bar exactly when the StrikeThrough bit is set and
    the final pen x is above 0.  A bar is one quad whose x coordinates
    are (minus) zero on the left and the final pen x on the right. *)
Theorem decoration_bars (t : Text) (p : positive) (utf32String : list Z) :
  m_geometryNeedUpdate t = true ->
  m_font t = Some p ->
  m_string t <> EmptyString ->
  from_bytes (m_string t) = Some utf32String ->
  let f := font_at p in
  let pen :=
    add_ellipsis f (entered t) (scan f (entered t) utf32String (initial f (entered t))) in
  let under := has (m_style t) Underlined && (F32.zero <? x pen)%f32 in
  let strike := has (m_style t) StrikeThrough && (F32.zero <? x pen)%f32 in
  m_vertices (state_of (ensureGeometryUpdate t)) =
    vertices pen
    ++ (if under then underlineBar f (entered t) pen else [])
    ++ (if strike then strikeThroughBar f (entered t) pen else []) /\
  length (underlineBar f (entered t) pen) = 6%nat /\
  length (strikeThroughBar f (entered t) pen) = 6%nat /\
  (under = true ->
   map (fun v => vx (position v)) (underlineBar f (entered t) pen) =
     [F32.opp F32.zero; x pen; F32.opp F32.zero;
      F32.opp F32.zero; x pen; x pen]) /\
  (strike = true ->
   map (fun v => vx (position v)) (strikeThroughBar f (entered t) pen) =
     [F32.opp F32.zero; x pen; F32.opp F32.zero;
      F32.opp F32.zero; x pen; x pen]).
Proof.
  intros Hd Hf Hs Hu f pen under strike.
  rewrite (ensureGeometryUpdate_layout t p utf32String Hd Hf Hs Hu).
  cbn [state_of]. fold f.
  assert (Hspan : forall b, b && (F32.zero <? x pen)%f32 = true ->
            (x pen + F32.zero)%f32 = x pen).
  { intros b Hb. apply andb_true_iff in Hb. apply positive_plus_zero, Hb. }
  repeat split.
  - change (m_vertices (publish ?s ?u)) with (vertices s).
    apply (finish_vertices f (entered t)).
  - intros Hb. unfold underlineBar. rewrite addLine_span. cbv zeta.
    rewrite (Hspan _ Hb). reflexivity.
  - intros Hb. unfold strikeThroughBar. rewrite addLine_span. cbv zeta.
    rewrite (Hspan _ Hb). reflexivity.
Qed.

End Decoration.

Module StaleDecoration.
Import Demo Examples Cases.
Local Open Scope string_scope.

(** C8 (the code departs from it): "ab" underlined is laid out: two
    glyph quads and the underline bar from 0 to the pen, 20.  The style
    is then set back to Regular and the string emptied.  The next
    [ensureGeometryUpdate] returns before the clearing statements, so
    the bar is still in the fill buffer although the Underlined bit is
    clear and no character is laid out.  The same text laid out with a
    character has the bar no more. *)
Theorem stale_bar_after_emptied_string :
  m_geometryNeedUpdate underlined_then_emptied = true /\
  m_string underlined_then_emptied = "" /\
  has (m_style underlined_then_emptied) Underlined = false /\
  ensureGeometryUpdate underlined_then_emptied =
    Ok (set_geometryNeedUpdate false underlined_then_emptied) /\
  length (m_vertices (laid underlined_then_emptied)) = 18%nat /\
  skipn 12 (m_vertices (laid underlined_then_emptied)) =
    addLine [] (m_textureSize underlined_then_emptied) (F32.of_Z 20) (F32.of_Z 16)
      white (F32.of_Z 2) (F32.of_Z 1) F32.zero /\
  map (fun v => vx (position v)) (skipn 12 (m_vertices (laid underlined_then_emptied))) =
    [F32.opp F32.zero; F32.of_Z 20; F32.opp F32.zero;
     F32.opp F32.zero; F32.of_Z 20; F32.of_Z 20] /\
  length (m_vertices (laid (setString "ab" underlined_then_emptied))) = 12%nat.
Proof. vm_compute. repeat split. Qed.

End StaleDecoration.

(** ** Truncation in single-line mode *)

Section Truncation.

Context {rt : Runtime}.
Variables (f : Font) (t : Text).
Hypothesis single : singleLineMode t = true.

Lemma blank_single (w : float) (s : Pen) :
  blank t w s = if (x s + w <=? availableWidth t)%f32 then set_x (x s + w)%f32 s else s.
Proof. unfold blank. rewrite single. reflexivity. Qed.

(** The character loop against the walk: the loop places six vertices
    per character the walk counts, never moves the pen down, and ends at
    the truncation point of the walk, with [truncated] set exactly when
    the three dots fit there. *)
Lemma scan_clampWalk (utf32String : list Z) :
  forall s : Pen,
    truncated s = false ->
    let w := clampWalk f t utf32String (x s) (prevChar s) in
    let s' := scan f t utf32String s in
    length (vertices s') = (length (vertices s) + 6 * emitted w)%nat /\
    length (outlineVertices s') =
      (length (outlineVertices s)
       + if F32.neqb (m_outlineThickness t) F32.zero then 6 * emitted w else 0)%nat /\
    y s' = y s /\
    match stop w with
    | Some xt =>
        x s' = xt /\ truncated s' = (xt + ellipsisWidth f t <=? availableWidth t)%f32
    | None => truncated s' = false
    end.
Proof.
  induction utf32String as [|curChar rest IH]; intros s Ht.
  - cbn. rewrite Nat.add_0_r. destruct (F32.neqb _ _); rewrite ?Nat.add_0_r; auto.
  - cbn [scan clampWalk]. unfold step.
    set (s1 := set_prevChar curChar
                 (set_x (x s + getKerning f (prevChar s) curChar
                                 (m_characterSize t) (bold t))%f32 s)).
    set (kx := (x s + getKerning f (prevChar s) curChar
                        (m_characterSize t) (bold t))%f32).
    assert (Hs1 : x s1 = kx /\ prevChar s1 = curChar /\ truncated s1 = false
                  /\ vertices s1 = vertices s /\ outlineVertices s1 = outlineVertices s
                  /\ y s1 = y s) by (repeat split; assumption).
    destruct Hs1 as (X1 & P1 & T1 & V1 & O1 & Y1).
    assert (Hblank : forall w b,
              let s2 := if (x s1 + w <=? availableWidth t)%f32
                        then set_x (x s1 + w)%f32 s1 else s1 in
              b = (if (kx + w <=? availableWidth t)%f32 then (kx + w)%f32 else kx) ->
              x s2 = b /\ prevChar s2 = curChar /\ truncated s2 = false
              /\ vertices s2 = vertices s /\ outlineVertices s2 = outlineVertices s
              /\ y s2 = y s).
    { intros w b s2 ->. subst s2. rewrite X1.
      destruct (kx + w <=? availableWidth t)%f32; repeat split; assumption. }
    destruct (curChar =? space) eqn:Esp; [|destruct (curChar =? tab) eqn:Etab;
      [|destruct (curChar =? newline) eqn:Enl]]; cbn [orb]; cbv iota.
    + assert (Etab : (curChar =? tab) = false)
        by (apply Z.eqb_eq in Esp; rewrite Esp; reflexivity).
      rewrite Etab, blank_single.
      destruct (Hblank (hspace f t) _ eq_refl) as (X2 & P2 & T2 & V2 & O2 & Y2).
      specialize (IH _ T2). rewrite X2, P2, V2, O2, Y2 in IH. exact IH.
    + rewrite blank_single.
      destruct (Hblank (hspace f t * F32.of_Z 4)%f32 _ eq_refl)
        as (X2 & P2 & T2 & V2 & O2 & Y2).
      specialize (IH _ T2). rewrite X2, P2, V2, O2, Y2 in IH. exact IH.
    + rewrite single.
      destruct (Hblank (hspace f t) _ eq_refl) as (X2 & P2 & T2 & V2 & O2 & Y2).
      specialize (IH _ T2). rewrite X2, P2, V2, O2, Y2 in IH. exact IH.
    + rewrite single. cbn [andb negb orb]. rewrite orb_false_r. rewrite X1.
      destruct (availableWidth t <? _)%f32 eqn:Ecross.
      * cbn [emitted stop]. rewrite Nat.mul_0_r, !Nat.add_0_r.
        destruct (kx + ellipsisWidth f t <=? availableWidth t)%f32 eqn:Efit.
        -- cbn [set_truncated x y vertices outlineVertices truncated].
           rewrite O1, V1, Y1, X1.
           destruct (F32.neqb _ _); rewrite ?Nat.add_0_r; repeat split.
        -- rewrite O1, V1, Y1, X1, T1.
           destruct (F32.neqb _ _); rewrite ?Nat.add_0_r; repeat split.
      * cbn [emitted stop].
        set (newX := (kx + advance (getGlyph f curChar (m_characterSize t) (bold t)
                                      F32.zero))%f32).
        destruct (emit_pen f t curChar newX s1) as (X2 & Y2 & P2 & T2).
        destruct (emit_vertices f t curChar newX s1) as (V2 & O2).
        rewrite T1 in T2. specialize (IH _ T2).
        rewrite X2, P2, P1, V2, O2, Y2, V1, O1, Y1 in IH.
        destruct IH as (IV & IO & IY & IS).
        repeat split; try assumption.
        -- rewrite IV. lia.
        -- rewrite IO. destruct (F32.neqb _ _); lia.
Qed.

End Truncation.

Section Ellipsis.

Context {rt : Runtime}.

(** The ellipsis step after the character loop of single-line mode. *)
Lemma add_ellipsis_clamp (f : Font) (t : Text) (utf32String : list Z) (s : Pen) :
  singleLineMode t = true ->
  truncated s = false ->
  let w := clampWalk f t utf32String (x s) (prevChar s) in
  let s' := scan f t utf32String s in
  add_ellipsis f t s' =
    if ellipsisFits f t w then addDot f t (addDot f t (addDot f t s')) else s'.
Proof.
  intros Hsingle Ht w s'.
  destruct (scan_clampWalk f t Hsingle utf32String s Ht) as (_ & _ & _ & Hstop).
  fold w s' in Hstop. unfold add_ellipsis, ellipsisFits. rewrite Hsingle.
  destruct (stop w) as [xt|].
  - destruct Hstop as [Hx Htr]. rewrite Hx, Htr, andb_true_r, andb_diag. reflexivity.
  - rewrite Hstop. reflexivity.
Qed.

(** C1: in single-line mode, when the layout runs, the fill buffer is
    made of the quads of the characters placed before the truncation
    point (six vertices each), then of the three dot quads exactly when
    the pen x at the truncation point plus three dot advances does not
    pass the available width (nothing otherwise, and nothing when the
    text ends before any truncation point), then of the decoration.  The
    outline buffer is made the same way when the outline thickness is
    not 0, and stays empty of glyph and dot quads when it is 0. *)
Theorem ellipsis_quads (t : Text) (p : positive) (utf32String : list Z) :
  m_geometryNeedUpdate t = true ->
  m_font t = Some p ->
  m_string t <> EmptyString ->
  from_bytes (m_string t) = Some utf32String ->
  m_overflow t = Clamp ->
  let f := font_at p in
  let w := clampWalk f (entered t) utf32String (startX f (entered t)) 0 in
  let s := scan f (entered t) utf32String (initial f (entered t)) in
  let fits := ellipsisFits f (entered t) w in
  let outlined := F32.neqb (m_outlineThickness t) F32.zero in
  let dots :=
    ellipsisQuads f (entered t) (m_fillColor t)
      (getGlyph f dot (m_characterSize t) (bold t) F32.zero) s in
  let outlineDots :=
    ellipsisQuads f (entered t) (m_outlineColor t)
      (getGlyph f dot (m_characterSize t) (bold t) (m_outlineThickness t)) s in
  let pen := add_ellipsis f (entered t) s in
  m_vertices (state_of (ensureGeometryUpdate t)) =
    vertices s ++ (if fits then dots else []) ++ decoration f (entered t) pen /\
  m_outlineVertices (state_of (ensureGeometryUpdate t)) =
    outlineVertices s ++ (if fits && outlined then outlineDots else [])
    ++ outlineDecoration f (entered t) pen /\
  length (vertices s) = (6 * emitted w)%nat /\
  length (outlineVertices s) = (if outlined then 6 * emitted w else 0)%nat /\
  length dots = 18%nat /\
  length outlineDots = 18%nat.
Proof.
  intros Hd Hf Hs Hu Hclamp f w s fits outlined dots outlineDots pen.
  assert (Hsingle : singleLineMode (entered t) = true).
  { unfold singleLineMode. cbn. rewrite Hclamp. reflexivity. }
  rewrite (ensureGeometryUpdate_layout t p utf32String Hd Hf Hs Hu).
  cbn [state_of]. fold f s.
  change (m_vertices (publish ?a ?b)) with (vertices a).
  change (m_outlineVertices (publish ?a ?b)) with (outlineVertices a).
  rewrite finish_decoration, finish_outlineDecoration. fold pen.
  destruct (scan_clampWalk f (entered t) Hsingle utf32String (initial f (entered t)) eq_refl)
    as (HV & HO & _ & _).
  cbn [x prevChar initial] in HV, HO. fold w s in HV, HO.
  change (vertices (initial f (entered t))) with (@nil Vertex) in HV.
  change (outlineVertices (initial f (entered t))) with (@nil Vertex) in HO.
  change (m_outlineThickness (entered t)) with (m_outlineThickness t) in HO.
  fold outlined in HO. cbn [length Nat.add] in HV, HO.
  assert (Hpen : pen = if fits then addDot f (entered t) (addDot f (entered t)
                                        (addDot f (entered t) s)) else s).
  { exact (add_ellipsis_clamp f (entered t) utf32String (initial f (entered t))
             Hsingle eq_refl). }
  destruct (three_dots f (entered t) s) as [V3 O3].
  change (m_outlineThickness (entered t)) with (m_outlineThickness t) in O3.
  fold outlined in O3.
  assert (HpV : vertices pen = vertices s ++ (if fits then dots else [])).
  { rewrite Hpen. destruct fits; [exact V3 | symmetry; apply app_nil_r]. }
  assert (HpO : outlineVertices pen =
                outlineVertices s ++ (if fits && outlined then outlineDots else [])).
  { rewrite Hpen. destruct fits; cbn [andb]; [exact O3 | symmetry; apply app_nil_r]. }
  rewrite HpV, HpO, <- !app_assoc.
  repeat split; try assumption.
Qed.

End Ellipsis.

(** ** Position query *)

Section Position.

Context {rt : Runtime}.

(** The loop of [findCharacterPos] is the walk [penWalk]. *)
Lemma fold_advancePos (f : Font) (t : Text) (utf32String : list Z) :
  forall (position : Vector2f) (prevChar : Z),
    fst (fold_left (advancePos f t) utf32String (position, prevChar)) =
      penWalk f t utf32String (vx position) (vy position) prevChar.
Proof.
  induction utf32String as [|curChar rest IH]; intros position prevChar.
  - destruct position; reflexivity.
  - cbn [fold_left penWalk]. unfold advancePos at 2.
    destruct (curChar =? space); [|destruct (curChar =? tab);
      [|destruct (curChar =? newline)]]; rewrite IH; reflexivity.
Qed.

(** C3, as amended: with a font and a string that decodes,
    [findCharacterPos 0] is the transform of the local origin (0, 0), and
    [findCharacterPos] at the length of the string, or beyond, is the
    transform of the pen that starts at (0, 0) and follows the rules of
    the query itself over every character. *)
Theorem findCharacterPos_ends (t : Text) (p : positive) (utf32String : list Z) :
  m_font t = Some p ->
  from_bytes (m_string t) = Some utf32String ->
  findCharacterPos 0 t = Some (transformPoint (getTransform t) Vector2f0) /\
  findCharacterPos (length utf32String) t =
    Some (transformPoint (getTransform t)
            (penWalk (font_at p) t utf32String F32.zero F32.zero 0)) /\
  (forall index : nat,
     (length utf32String <= index)%nat ->
     findCharacterPos index t = findCharacterPos (length utf32String) t).
Proof.
  intros Hf Hu.
  assert (Hlen : forall index, (length utf32String <= index)%nat ->
            findCharacterPos index t =
              Some (transformPoint (getTransform t)
                      (penWalk (font_at p) t utf32String F32.zero F32.zero 0))).
  { intros index Hle. unfold findCharacterPos. rewrite Hf, Hu.
    destruct (length utf32String <? index)%nat eqn:E.
    - rewrite firstn_all, fold_advancePos. reflexivity.
    - apply Nat.ltb_ge in E. replace index with (length utf32String) by lia.
      rewrite firstn_all, fold_advancePos. reflexivity. }
  split; [|split].
  - unfold findCharacterPos. rewrite Hf, Hu.
    destruct (length utf32String <? 0)%nat eqn:E.
    + apply Nat.ltb_lt in E. lia.
    + reflexivity.
  - apply Hlen. lia.
  - intros index Hle. rewrite (Hlen index Hle). symmetry. apply Hlen. lia.
Qed.

End Position.

(** ** The theorems at work on the demo runtime *)

Module Witnesses.
Import Demo Examples Cases.
Local Open Scope string_scope.

(** "Hello World" in a box 60 wide: three glyphs, then the three dots. *)
Lemma ellipsis_quads_witness :
  m_geometryNeedUpdate hello = true /\
  m_overflow hello = Clamp /\
  from_bytes (m_string hello) = Some hello_utf32 /\
  stop (clampWalk (font_at 1) (entered hello) hello_utf32
          (startX (font_at 1) (entered hello)) 0) = Some (F32.of_Z 30) /\
  length (m_vertices (laid hello)) = 36%nat /\
  length (m_outlineVertices (laid hello)) = 0%nat.
Proof.
  destruct (ellipsis_quads (rt := runtime) hello 1 hello_utf32 eq_refl eq_refl
              ltac:(discriminate) eq_refl eq_refl) as (HV & HO & _).
  unfold laid. rewrite HV, HO. vm_compute. repeat split.
Defined.

(** The same text in a box 25 wide: the first glyph already passes the
    limit and the dots do not fit at x = 0: nothing is placed. *)
Example no_room_for_the_ellipsis :
  let t := setSizeMax (F32.of_Z 25) F32.zero (new "Hello World" 16 1) in
  clampWalk (font_at 1) (entered t) hello_utf32 (startX (font_at 1) (entered t)) 0 =
    {| emitted := 0; stop := Some F32.zero |} /\
  ellipsisFits (font_at 1) (entered t)
    (clampWalk (font_at 1) (entered t) hello_utf32 (startX (font_at 1) (entered t)) 0)
    = false /\
  m_vertices (laid t) = [].
Proof. vm_compute. repeat split. Qed.

(** "ab" underlined: two glyph quads and one bar from 0 to the pen, 20. *)
Lemma decoration_bars_witness :
  m_geometryNeedUpdate underlined_ab = true /\
  from_bytes (m_string underlined_ab) = Some [97; 98] /\
  length (m_vertices (laid underlined_ab)) = 18%nat /\
  map (fun v => vx (position v)) (skipn 12 (m_vertices (laid underlined_ab))) =
    [F32.opp F32.zero; F32.of_Z 20; F32.opp F32.zero;
     F32.opp F32.zero; F32.of_Z 20; F32.of_Z 20].
Proof.
  destruct (decoration_bars (rt := runtime) underlined_ab 1 [97; 98] eq_refl eq_refl
              ltac:(discriminate) eq_refl) as (HV & _).
  unfold laid. rewrite HV. vm_compute. repeat split.
Defined.

(** "Hi" without style: two glyph quads, no bar, no outline. *)
Example plain_hi :
  length (m_vertices (laid (new "Hi" 16 1))) = 12%nat /\
  m_outlineVertices (laid (new "Hi" 16 1)) = [].
Proof. vm_compute. split; reflexivity. Qed.

(** Up-to-date "ab" with an outline, recoloured in red: the twelve
    vertices of each buffer become red. *)
Lemma recolor_keeps_geometry_witness :
  m_geometryNeedUpdate (laid outlined_ab) = false /\
  isBmFont (font_at 1) = false /\
  length (m_outlineVertices (laid outlined_ab)) = 12%nat /\
  map color (m_vertices (setFillColor red (laid outlined_ab))) = repeat red 12 /\
  m_geometryNeedUpdate (setFillColor red (laid outlined_ab)) = false /\
  option_map (fun t => map color (m_outlineVertices t))
    (setOutlineColor red (laid outlined_ab)) = Some (repeat red 12) /\
  option_map (fun t => map position (m_outlineVertices t))
    (setOutlineColor red (laid outlined_ab)) =
    Some (map position (m_outlineVertices (laid outlined_ab))).
Proof.
  destruct (recolor_keeps_geometry (rt := runtime) (laid outlined_ab) red red eq_refl
              ltac:(discriminate) ltac:(discriminate))
    as ((_ & _ & _ & HC & _ & _ & HD) & HO & _).
  destruct (HO 1%positive eq_refl eq_refl) as (t' & E & _ & OP & _ & OC & _).
  split; [reflexivity|]. split; [reflexivity|]. split; [reflexivity|].
  split; [rewrite HC; reflexivity|]. split; [exact HD|].
  rewrite E. cbn [option_map]. rewrite OC, OP. split; reflexivity.
Defined.

(** C7 as it is written fails: a text gets an outline of thickness 2,
    then a bitmap font, and is laid out: twelve black outline vertices,
    flag clear.  [setOutlineColor] with red, a different colour, returns
    the state as it was: the outline colour and the twelve vertices stay
    black. *)
Lemma setOutlineColor_on_a_bitmap_font_rewrites_nothing :
  m_geometryNeedUpdate (laid bitmap_outlined) = false /\
  m_font (laid bitmap_outlined) = Some 2%positive /\
  isBmFont (font_at 2) = true /\
  length (m_outlineVertices (laid bitmap_outlined)) = 12%nat /\
  m_outlineColor (laid bitmap_outlined) = black /\
  red <> black /\
  setOutlineColor red (laid bitmap_outlined) = Some (laid bitmap_outlined) /\
  option_map (fun t => map color (m_outlineVertices t))
    (setOutlineColor red (laid bitmap_outlined)) = Some (repeat black 12) /\
  option_map (fun t => map color (m_outlineVertices t))
    (setOutlineColor red (laid bitmap_outlined)) <> Some (repeat red 12).
Proof. vm_compute. repeat split; discriminate. Qed.

(** The query on "ab": the origin at index 0, the pen (20, 0) at the end. *)
Lemma findCharacterPos_ends_witness :
  from_bytes (m_string (new "ab" 16 1)) = Some [97; 98] /\
  findCharacterPos 0 (new "ab" 16 1) = Some Vector2f0 /\
  findCharacterPos 2 (new "ab" 16 1) = Some {| vx := F32.of_Z 20; vy := F32.zero |}.
Proof.
  destruct (findCharacterPos_ends (rt := runtime) (new "ab" 16 1) 1 [97; 98]
              eq_refl eq_refl) as (H0 & H2 & _).
  split; [reflexivity|]. split; [rewrite H0; reflexivity|].
  change 2%nat with (length [97; 98]). rewrite H2. reflexivity.
Defined.

(** C3 as it is written fails: on "ab" with the identity transform, the
    layout starts at (0, 16) and ends its pen at (20, 16), while the
    query answers (0, 0) at index 0 and (20, 0) at the length. *)
Lemma findCharacterPos_is_not_the_layout_pen :
  let t := new "ab" 16 1 in
  let f := font_at 1 in
  let pen := scan f (entered t) [97; 98] (initial f (entered t)) in
  transformPoint (getTransform t) {| vx := startX f (entered t); vy := startY f (entered t) |}
    = {| vx := F32.zero; vy := F32.of_Z 16 |} /\
  findCharacterPos 0 t = Some Vector2f0 /\
  findCharacterPos 0 t <>
    Some (transformPoint (getTransform t)
            {| vx := startX f (entered t); vy := startY f (entered t) |}) /\
  transformPoint (getTransform t) {| vx := x pen; vy := y pen |}
    = {| vx := F32.of_Z 20; vy := F32.of_Z 16 |} /\
  findCharacterPos 2 t = Some {| vx := F32.of_Z 20; vy := F32.zero |} /\
  findCharacterPos 2 t <>
    Some (transformPoint (getTransform t) {| vx := x pen; vy := y pen |}).
Proof. vm_compute. repeat split; discriminate. Qed.

End Witnesses.

(** * Further properties of the entity *)

(** ** What the setters keep *)

Lemma FontPtr_eqb_true (p q : FontPtr) : FontPtr_eqb p q = true -> p = q.
Proof.
  destruct p as [i|], q as [j|]; cbn; try discriminate; [|reflexivity].
  intros E. apply Pos.eqb_eq in E. subst. reflexivity.
Qed.

Section SetterFrames.

Context {rt : Runtime}.







Lemma setFillColor_flag (c : Color) (t : Text) :
  m_geometryNeedUpdate (setFillColor c t) = m_geometryNeedUpdate t.
Proof.
  unfold setFillColor. destruct (Color_eqb c (m_fillColor t)); cbn [negb]; [reflexivity|].
  cbn. destruct (m_geometryNeedUpdate t) eqn:E; cbn; exact E.
Qed.

Lemma setOutlineColor_flag (c : Color) (t t' : Text) :
  setOutlineColor c t = Some t' -> m_geometryNeedUpdate t' = m_geometryNeedUpdate t.
Proof.
  unfold setOutlineColor. destruct (m_font t) as [p|]; [|discriminate].
  destruct (negb (isBmFont (font_at p)) && negb (Color_eqb c (m_outlineColor t))).
  - cbn. destruct (m_geometryNeedUpdate t) eqn:E; cbn [negb]; intros [= <-]; cbn; exact E.
  - intros [= <-]. reflexivity.
Qed.


(** No setter clears the dirty flag: once a text is dirty it stays dirty
    through every setter, until [ensureGeometryUpdate] runs. *)
Theorem setters_keep_dirty (t : Text) :
  m_geometryNeedUpdate t = true ->
  (forall s, m_geometryNeedUpdate (setString s t) = true) /\
  (forall font, m_geometryNeedUpdate (setFont font t) = true) /\
  (forall size, m_geometryNeedUpdate (setCharacterSize size t) = true) /\
  (forall style, m_geometryNeedUpdate (setStyle style t) = true) /\
  (forall overflow, m_geometryNeedUpdate (setOverflow overflow t) = true) /\
  (forall w h, m_geometryNeedUpdate (setSizeMax w h t) = true) /\
  (forall size, m_geometryNeedUpdate (setLineSpacingModifier size t) = true) /\
  (forall c, m_geometryNeedUpdate (setFillColor c t) = true) /\
  (forall c t', setOutlineColor c t = Some t' -> m_geometryNeedUpdate t' = true) /\
  (forall thickness t',
     setOutlineThickness thickness t = Some t' -> m_geometryNeedUpdate t' = true) /\
  (forall w h t', setSize w h t = Some t' -> m_geometryNeedUpdate t' = true) /\
  (forall alpha t', setAlpha alpha false t = Some t' -> m_geometryNeedUpdate t' = true).
Proof.
  intros Hd. repeat match goal with |- _ /\ _ => split end.
  - intros s. unfold setString. destruct (negb _); [reflexivity | exact Hd].
  - intros font. unfold setFont. destruct (negb _); [reflexivity | exact Hd].
  - intros size. unfold setCharacterSize. destruct (negb _); [reflexivity | exact Hd].
  - intros style. unfold setStyle. destruct (negb _); [reflexivity | exact Hd].
  - intros overflow. unfold setOverflow. destruct (negb _); [reflexivity | exact Hd].
  - reflexivity.
  - intros size. exact Hd.
  - intros c. rewrite setFillColor_flag. exact Hd.
  - intros c t' E. rewrite (setOutlineColor_flag _ _ _ E). exact Hd.
  - intros thickness t'. unfold setOutlineThickness.
    destruct (m_font t) as [p|]; [|discriminate].
    destruct (_ && _); intros [= <-]; [reflexivity | exact Hd].
  - intros w h t'. unfold setSize.
    destruct (F32.zero <? h)%f32; [destruct (to_unsigned h) as [n|]|];
      [| discriminate |]; intros [= <-]; reflexivity.
  - intros alpha t'. unfold setAlpha.
    destruct (negb (alpha =? a (m_fillColor t))).
    + destruct (setOutlineColor _ _) as [t2|] eqn:E; [|discriminate].
      intros [= <-]. rewrite (setOutlineColor_flag _ _ _ E), setFillColor_flag. exact Hd.
    + intros [= <-]. exact Hd.
Qed.

(** What a setter stores is what the getter answers: always for the
    string, the font, the character size, the style, the overflow mode
    and the fill colour; for the outline colour only on a font that is
    not a bitmap font, a bitmap font keeping the old colour. *)
Theorem getters_after_setters (t : Text) (p : positive) :
  m_font t = Some p ->
  (forall s, getString (setString s t) = s) /\
  (forall font, getFont (setFont font t) = font) /\
  (forall size, getCharacterSize (setCharacterSize size t) = size) /\
  (forall style, getStyle (setStyle style t) = style) /\
  (forall overflow, getOverflow (setOverflow overflow t) = overflow) /\
  (forall c, getFillColor (setFillColor c t) = c) /\
  (forall c, option_map getOutlineColor (setOutlineColor c t) =
             Some (if isBmFont (font_at p) then m_outlineColor t else c)).
Proof.
  intros Hf. repeat match goal with |- _ /\ _ => split end.
  - intros s. unfold setString, getString.
    destruct (String.eqb (m_string t) s) eqn:E; cbn; [|reflexivity].
    apply String.eqb_eq, E.
  - intros font. unfold setFont, getFont.
    destruct (FontPtr_eqb (m_font t) font) eqn:E; cbn; [|reflexivity].
    apply FontPtr_eqb_true, E.
  - intros size. unfold setCharacterSize, getCharacterSize.
    destruct (m_characterSize t =? size) eqn:E; cbn; [|reflexivity]. apply Z.eqb_eq, E.
  - intros style. unfold setStyle, getStyle.
    destruct (m_style t =? style) eqn:E; cbn; [|reflexivity]. apply Z.eqb_eq, E.
  - intros overflow. unfold setOverflow, getOverflow.
    destruct (m_overflow t =? overflow) eqn:E; cbn; [|reflexivity]. apply Z.eqb_eq, E.
  - intros c. unfold setFillColor, getFillColor.
    destruct (Color_eqb c (m_fillColor t)) eqn:E; cbn.
    + symmetry. apply Color_eqb_eq, E.
    + destruct (m_geometryNeedUpdate t); reflexivity.
  - intros c. unfold setOutlineColor, getOutlineColor. rewrite Hf.
    destruct (isBmFont (font_at p)); cbn; [reflexivity|].
    destruct (Color_eqb c (m_outlineColor t)) eqn:E; cbn.
    + f_equal. symmetry. apply Color_eqb_eq, E.
    + destruct (m_geometryNeedUpdate t); reflexivity.
Qed.

End SetterFrames.

(** ** When [ensureGeometryUpdate] writes, and when it raises *)

Section Guards.

Context {rt : Runtime}.

(** Unless the flag is set, the font is there and the string is not
    empty, [ensureGeometryUpdate] returns normally and the only member
    it may write is the flag: buffers, bounds and size stay, stale or
    not. *)
Theorem ensureGeometryUpdate_writes_only_the_flag (t : Text) :
  m_geometryNeedUpdate t = false \/ m_font t = None \/ m_string t = EmptyString ->
  ensureGeometryUpdate t = Ok (set_geometryNeedUpdate false t).
Proof.
  intros H. destruct (m_geometryNeedUpdate t) eqn:Hd.
  - apply ensureGeometryUpdate_early_return; [exact Hd|].
    destruct H as [H|[H|H]]; [discriminate | left; exact H | right; exact H].
  - rewrite (ensureGeometryUpdate_clean t Hd). f_equal.
    destruct t; cbn in Hd; subst; reflexivity.
Qed.

(** When the converter rejects the string, [ensureGeometryUpdate] raises
    after it has cleared the flag, both buffers and the bounds, and
    before it writes the size: the size stays the one of the previous
    layout.  The next call finds the flag clear and returns normally,
    so the error is raised once. *)
Theorem ensureGeometryUpdate_range_error (t : Text) (p : positive) :
  m_geometryNeedUpdate t = true ->
  m_font t = Some p ->
  m_string t <> EmptyString ->
  from_bytes (m_string t) = None ->
  ensureGeometryUpdate t = RangeError (entered t) /\
  m_geometryNeedUpdate (entered t) = false /\
  m_vertices (entered t) = [] /\
  m_outlineVertices (entered t) = [] /\
  m_bounds (entered t) = FloatRect0 /\
  m_size (entered t) = m_size t /\
  ensureGeometryUpdate (entered t) = Ok (entered t) /\
  (forall index, findCharacterPos index t = None).
Proof.
  intros Hd Hf Hs Hu. repeat match goal with |- _ /\ _ => split end; try reflexivity.
  - unfold ensureGeometryUpdate. rewrite Hd. cbn. rewrite Hf.
    apply String.eqb_neq in Hs. rewrite Hs. cbn. rewrite Hu. reflexivity.
  - intros index. unfold findCharacterPos. rewrite Hf, Hu. reflexivity.
Qed.

End Guards.

(** ** [setSize] and [setAlpha] *)

Section SizeAndAlpha.

Context {rt : Runtime}.

(** [setSize] is [setSizeMax] after [setCharacterSize] of the truncated
    height when the height is above 0, and [setSizeMax] alone when it is
    not (zero, negative or NaN): the character size then stays.  It is
    undefined exactly when the height is above 0 and does not fit an
    [unsigned int]. *)
Theorem setSize_composes (width height : float) (t : Text) :
  setSize width height t =
    if (F32.zero <? height)%f32 then
      option_map (fun size => setSizeMax width height (setCharacterSize size t))
        (to_unsigned height)
    else Some (setSizeMax width height t).
Proof.
  unfold setSize. destruct (F32.zero <? height)%f32; [|reflexivity].
  destruct (to_unsigned height) as [size|]; [|reflexivity]. cbn [option_map].
  unfold setCharacterSize, setSizeMax. cbn.
  destruct (m_characterSize t =? size); reflexivity.
Qed.

(** [setAlpha], not recursive, on a text with a font: afterwards
    [getAlpha] answers the alpha given, the red, green and blue of both
    colours are those of before, and the dirty flag is as before.  The
    outline colour gets the alpha too when the alpha differs from the
    fill colour's and the font is not a bitmap font; on a bitmap font
    the outline colour stays whole. *)
Theorem setAlpha_sets_alpha (alpha : Z) (t : Text) (p : positive) :
  m_font t = Some p ->
  exists t',
    setAlpha alpha false t = Some t' /\
    getAlpha t' = alpha /\
    with_alpha 0 (m_fillColor t') = with_alpha 0 (m_fillColor t) /\
    with_alpha 0 (m_outlineColor t') = with_alpha 0 (m_outlineColor t) /\
    m_geometryNeedUpdate t' = m_geometryNeedUpdate t /\
    a (m_outlineColor t') =
      (if isBmFont (font_at p) || (alpha =? a (m_fillColor t))
       then a (m_outlineColor t) else alpha).
Proof.
  intros Hf. unfold setAlpha, getAlpha.
  destruct (alpha =? a (m_fillColor t)) eqn:Ea; cbn [negb].
  - exists t. apply Z.eqb_eq in Ea. rewrite orb_true_r. repeat split. symmetry. exact Ea.
  - rewrite orb_false_r.
    assert (Hfill : Color_eqb (with_alpha alpha (m_fillColor t)) (m_fillColor t) = false).
    { unfold Color_eqb. cbn. rewrite Ea. apply andb_false_r. }
    assert (Hset : exists t1,
               setFillColor (with_alpha alpha (m_fillColor t)) t = t1 /\
               m_fillColor t1 = with_alpha alpha (m_fillColor t) /\
               m_outlineColor t1 = m_outlineColor t /\
               m_font t1 = m_font t /\
               m_geometryNeedUpdate t1 = m_geometryNeedUpdate t).
    { eexists. split; [reflexivity|]. unfold setFillColor. rewrite Hfill. cbn.
      destruct (m_geometryNeedUpdate t) eqn:E; cbn; repeat split; exact E. }
    destruct Hset as (t1 & -> & F1 & O1 & P1 & D1).
    unfold setOutlineColor. rewrite P1, Hf, O1.
    destruct (isBmFont (font_at p)); cbn [negb andb].
    + exists t1. rewrite F1, O1, D1. repeat split.
    + destruct (Color_eqb (with_alpha alpha (m_outlineColor t)) (m_outlineColor t)) eqn:Eo;
        cbn [negb].
      * exists t1. rewrite F1, O1, D1. apply Color_eqb_eq in Eo.
        repeat split. rewrite <- Eo. reflexivity.
      * cbn. destruct (m_geometryNeedUpdate t1) eqn:E1; cbn [negb];
          eexists; (split; [reflexivity|]); cbn; rewrite ?F1, ?O1; cbn;
          repeat split; congruence.
Qed.

End SizeAndAlpha.

(** ** The buffers hold whole quads, one outline quad per fill quad *)

Section Quads.

Context {rt : Runtime}.
Variables (f : Font) (t : Text).

Lemma grows_0 (s s' : Pen) :
  vertices s' = vertices s -> outlineVertices s' = outlineVertices s -> grows t 0 s s'.
Proof.
  intros V O. unfold grows. rewrite V, O.
  destruct (F32.neqb _ _); split; lia.
Qed.

Lemma grows_trans (j k : nat) (s1 s2 s3 : Pen) :
  grows t j s1 s2 -> grows t k s2 s3 -> grows t (j + k) s1 s3.
Proof.
  unfold grows. intros [V1 O1] [V2 O2]. rewrite V2, O2, V1, O1.
  destruct (F32.neqb _ _); split; lia.
Qed.

Lemma emit_grows (curChar : Z) (newX : float) (s0 s : Pen) :
  vertices s = vertices s0 -> outlineVertices s = outlineVertices s0 ->
  grows t 1 s0 (emit f t curChar newX s).
Proof.
  intros V O. destruct (emit_vertices f t curChar newX s) as [EV EO].
  unfold grows. rewrite EV, EO, V, O. destruct (F32.neqb _ _); split; lia.
Qed.

Lemma step_grows (curChar : Z) (s : Pen) :
  exists k, (k <= 1)%nat /\ grows t k s (flow_pen (step f t curChar s)).
Proof.
  unfold step, blank.
  repeat match goal with
         | |- context [if ?c then _ else _] =>
             lazymatch c with
             | context [if _ then _ else _] => fail
             | _ => destruct c
             end
         end; cbn [flow_pen];
    first [ exists 1%nat; split; [lia|]; apply emit_grows; reflexivity
          | exists 0%nat; split; [lia|]; apply grows_0; reflexivity ].
Qed.

Lemma scan_grows (utf32String : list Z) :
  forall s, exists k,
    (k <= length utf32String)%nat /\ grows t k s (scan f t utf32String s).
Proof.
  induction utf32String as [|curChar rest IH]; intros s.
  - exists 0%nat. split; [lia|]. apply grows_0; reflexivity.
  - cbn [scan length]. destruct (step_grows curChar s) as (j & Hj & G).
    destruct (step f t curChar s) as [s1|s1|s1]; cbn [flow_pen] in G.
    + destruct (IH s1) as (k & Hk & G'). exists (j + k)%nat. split; [lia|].
      eapply grows_trans; eassumption.
    + exists j. split; [lia | exact G].
    + exists j. split; [lia | exact G].
Qed.

Lemma add_ellipsis_grows (s : Pen) :
  exists k, (k <= 3)%nat /\ grows t k s (add_ellipsis f t s).
Proof.
  unfold add_ellipsis. destruct (_ && _).
  - exists 3%nat. split; [lia|]. destruct (three_dots f t s) as [V O].
    unfold grows. rewrite V, O, !length_app.
    destruct (F32.neqb _ _); rewrite ?ellipsisQuads_length; cbn [length]; split; lia.
  - exists 0%nat. split; [lia|]. apply grows_0; reflexivity.
Qed.

Lemma decoration_grows (pen : Pen) :
  exists k, (k <= 2)%nat /\
    length (decoration f t pen) = (6 * k)%nat /\
    length (outlineDecoration f t pen) =
      (if F32.neqb (m_outlineThickness t) F32.zero then 6 * k else 0)%nat.
Proof.
  unfold decoration, outlineDecoration, underlineBar, strikeThroughBar.
  destruct (underlined t && (F32.zero <? x pen)%f32);
    destruct (strikeThrough t && (F32.zero <? x pen)%f32);
    [exists 2%nat | exists 1%nat | exists 1%nat | exists 0%nat];
    (split; [lia|]); destruct (F32.neqb _ _);
    rewrite ?length_app, ?addLine_length; cbn [length]; split; lia.
Qed.

Lemma finish_grows (utf32String : list Z) (s : Pen) :
  exists k, (k <= length utf32String + 5)%nat /\
    grows t k s (finish f t (scan f t utf32String s)).
Proof.
  destruct (scan_grows utf32String s) as (k1 & H1 & [V1 O1]).
  destruct (add_ellipsis_grows (scan f t utf32String s)) as (k2 & H2 & [V2 O2]).
  destruct (decoration_grows (add_ellipsis f t (scan f t utf32String s)))
    as (k3 & H3 & V3 & O3).
  exists (k1 + k2 + k3)%nat. split; [lia|]. unfold grows.
  rewrite finish_decoration, finish_outlineDecoration, !length_app.
  rewrite V3, O3, V2, O2, V1, O1. destruct (F32.neqb _ _); split; lia.
Qed.

End Quads.

Section QuadCount.

Context {rt : Runtime}.

(** After a layout both buffers hold whole quads: the fill buffer has
    six vertices times a number of quads that is at most the number of
    characters plus five (three dots, two bars); the outline buffer has
    exactly as many vertices when the outline thickness is not 0, and is
    empty when it is 0. *)
Theorem layout_quads (t : Text) (p : positive) (utf32String : list Z) :
  m_geometryNeedUpdate t = true ->
  m_font t = Some p ->
  m_string t <> EmptyString ->
  from_bytes (m_string t) = Some utf32String ->
  exists n : nat,
    (n <= length utf32String + 5)%nat /\
    length (m_vertices (state_of (ensureGeometryUpdate t))) = (6 * n)%nat /\
    length (m_outlineVertices (state_of (ensureGeometryUpdate t))) =
      (if F32.neqb (m_outlineThickness t) F32.zero then 6 * n else 0)%nat.
Proof.
  intros Hd Hf Hs Hu.
  rewrite (ensureGeometryUpdate_layout t p utf32String Hd Hf Hs Hu). cbn [state_of].
  destruct (finish_grows (font_at p) (entered t) utf32String
              (initial (font_at p) (entered t))) as (n & Hn & V & O).
  exists n. split; [exact Hn|].
  change (m_vertices (publish ?s ?u)) with (vertices s).
  change (m_outlineVertices (publish ?s ?u)) with (outlineVertices s).
  split; [exact V | exact O].
Qed.

End QuadCount.

(** ** Colours: recolouring in place against a new layout *)

Lemma recolor_app (c : Color) (vs ws : VertexArray) :
  recolor c (vs ++ ws) = recolor c vs ++ recolor c ws.
Proof. apply map_app. Qed.

Lemma recolor_addGlyphQuad (c c0 : Color) (vs : VertexArray) texSize position glyph italic :
  recolor c (addGlyphQuad vs texSize position c0 glyph italic) =
    addGlyphQuad (recolor c vs) texSize position c glyph italic.
Proof.
  rewrite (addGlyphQuad_app vs), (addGlyphQuad_app (recolor c vs)), recolor_app.
  reflexivity.
Qed.

Lemma recolor_addLine (c c0 : Color) (vs : VertexArray) texSize lineLength lineTop offset
    thickness outlineThickness :
  recolor c (addLine vs texSize lineLength lineTop c0 offset thickness outlineThickness) =
    addLine (recolor c vs) texSize lineLength lineTop c offset thickness outlineThickness.
Proof.
  rewrite (addLine_app vs), (addLine_app (recolor c vs)), recolor_app. reflexivity.
Qed.

Lemma Pen_ext (s s' : Pen) :
  x s = x s' -> y s = y s' -> minX s = minX s' -> minY s = minY s' ->
  maxX s = maxX s' -> maxY s = maxY s' -> prevChar s = prevChar s' ->
  truncated s = truncated s' -> vertices s = vertices s' ->
  outlineVertices s = outlineVertices s' -> s = s'.
Proof. destruct s, s'; cbn; intros; subst; reflexivity. Qed.

Section Repaint.
Context {rt : Runtime}.
Variables (f : Font) (t : Text) (fill outline : Color).

Ltac frame :=
  change (singleLineMode (set_colors fill outline t)) with (singleLineMode t) in *;
  change (availableWidth (set_colors fill outline t)) with (availableWidth t) in *;
  change (availableHeight (set_colors fill outline t)) with (availableHeight t) in *;
  change (hspace f (set_colors fill outline t)) with (hspace f t) in *;
  change (vspace f (set_colors fill outline t)) with (vspace f t) in *;
  change (lineStart f (set_colors fill outline t)) with (lineStart f t) in *;
  change (ellipsisWidth f (set_colors fill outline t)) with (ellipsisWidth f t) in *;
  change (bold (set_colors fill outline t)) with (bold t) in *;
  change (italic (set_colors fill outline t)) with (italic t) in *;
  change (underlined (set_colors fill outline t)) with (underlined t) in *;
  change (strikeThrough (set_colors fill outline t)) with (strikeThrough t) in *;
  change (underlineOffset f (set_colors fill outline t)) with (underlineOffset f t) in *;
  change (underlineThickness f (set_colors fill outline t)) with (underlineThickness f t) in *;
  change (strikeThroughOffset f (set_colors fill outline t)) with (strikeThroughOffset f t) in *;
  change (m_characterSize (set_colors fill outline t)) with (m_characterSize t) in *;
  change (m_outlineThickness (set_colors fill outline t)) with (m_outlineThickness t) in *;
  change (m_textureSize (set_colors fill outline t)) with (m_textureSize t) in *;
  change (m_fillColor (set_colors fill outline t)) with fill in *;
  change (m_outlineColor (set_colors fill outline t)) with outline in *.

Ltac pens :=
  cbn [repaint set_pen_vertices set_pen_outlineVertices set_x set_y set_prevChar
       set_truncated x y minX minY maxX maxY prevChar truncated vertices
       outlineVertices extend flow_map nextLine].

Ltac pen_eq :=
  apply Pen_ext; pens; rewrite ?recolor_addGlyphQuad, ?recolor_addLine; reflexivity.

Lemma emit_repaint (curChar : Z) (newX : float) (s : Pen) :
  emit f (set_colors fill outline t) curChar newX (repaint fill outline s) =
    repaint fill outline (emit f t curChar newX s).
Proof.
  unfold emit. frame.
  destruct (F32.neqb (m_outlineThickness t) F32.zero); pen_eq.
Qed.

Lemma blank_repaint (w : float) (s : Pen) :
  blank (set_colors fill outline t) w (repaint fill outline s) =
    repaint fill outline (blank t w s).
Proof. unfold blank. frame. pens. destruct (_ || _); pen_eq. Qed.

Lemma nextLine_repaint (s : Pen) :
  nextLine f (set_colors fill outline t) (repaint fill outline s) =
    repaint fill outline (nextLine f t s).
Proof. unfold nextLine. frame. pen_eq. Qed.

Lemma kern_repaint (curChar : Z) (k : float) (s : Pen) :
  set_prevChar curChar (set_x k (repaint fill outline s)) =
    repaint fill outline (set_prevChar curChar (set_x k s)).
Proof. pen_eq. Qed.

Lemma truncated_repaint (s : Pen) :
  set_truncated true (repaint fill outline s) =
    repaint fill outline (set_truncated true s).
Proof. pen_eq. Qed.

Lemma step_repaint (curChar : Z) (s : Pen) :
  step f (set_colors fill outline t) curChar (repaint fill outline s) =
    flow_map (repaint fill outline) (step f t curChar s).
Proof.
  unfold step. frame.
  change (x (repaint fill outline s)) with (x s).
  change (prevChar (repaint fill outline s)) with (prevChar s).
  rewrite kern_repaint.
  set (s1 := set_prevChar curChar (set_x _ s)).
  rewrite nextLine_repaint.
  change (x (repaint fill outline s1)) with (x s1).
  change (x (repaint fill outline (nextLine f t s1))) with (x (nextLine f t s1)).
  change (y (repaint fill outline (nextLine f t s1))) with (y (nextLine f t s1)).
  rewrite !blank_repaint, !emit_repaint, !truncated_repaint.
  destruct (curChar =? space); [reflexivity|].
  destruct (curChar =? tab); [reflexivity|].
  destruct (curChar =? newline).
  - destruct (singleLineMode t).
    + destruct (_ <=? _)%f32; reflexivity.
    + destruct (_ <? _)%f32; reflexivity.
  - destruct (_ || _); [|reflexivity].
    destruct (singleLineMode t).
    + destruct (_ <=? _)%f32; reflexivity.
    + destruct (_ <? _)%f32; reflexivity.
Qed.

Lemma scan_repaint (utf32String : list Z) :
  forall s,
    scan f (set_colors fill outline t) utf32String (repaint fill outline s) =
      repaint fill outline (scan f t utf32String s).
Proof.
  induction utf32String as [|curChar rest IH]; intros s; [reflexivity|].
  cbn [scan]. rewrite step_repaint.
  destruct (step f t curChar s); cbn [flow_map]; [apply IH | reflexivity | reflexivity].
Qed.

Lemma addDot_repaint (s : Pen) :
  addDot f (set_colors fill outline t) (repaint fill outline s) =
    repaint fill outline (addDot f t s).
Proof.
  unfold addDot. frame.
  destruct (F32.neqb (m_outlineThickness t) F32.zero); pen_eq.
Qed.

Lemma add_ellipsis_repaint (s : Pen) :
  add_ellipsis f (set_colors fill outline t) (repaint fill outline s) =
    repaint fill outline (add_ellipsis f t s).
Proof.
  unfold add_ellipsis. frame.
  change (truncated (repaint fill outline s)) with (truncated s).
  change (x (repaint fill outline s)) with (x s).
  destruct (_ && _); [|reflexivity]. rewrite !addDot_repaint. reflexivity.
Qed.

Lemma addUnderline_repaint (s : Pen) :
  addUnderline f (set_colors fill outline t) (repaint fill outline s) =
    repaint fill outline (addUnderline f t s).
Proof.
  unfold addUnderline. frame.
  change (x (repaint fill outline s)) with (x s).
  destruct (_ && _); [|reflexivity].
  destruct (F32.neqb (m_outlineThickness t) F32.zero); pen_eq.
Qed.

Lemma addStrikeThrough_repaint (s : Pen) :
  addStrikeThrough f (set_colors fill outline t) (repaint fill outline s) =
    repaint fill outline (addStrikeThrough f t s).
Proof.
  unfold addStrikeThrough. frame.
  change (x (repaint fill outline s)) with (x s).
  destruct (_ && _); [|reflexivity].
  destruct (F32.neqb (m_outlineThickness t) F32.zero); pen_eq.
Qed.

Lemma finish_repaint (s : Pen) :
  finish f (set_colors fill outline t) (repaint fill outline s) =
    repaint fill outline (finish f t s).
Proof.
  unfold finish.
  rewrite add_ellipsis_repaint, addUnderline_repaint, addStrikeThrough_repaint.
  reflexivity.
Qed.

(** The layout of a text with other colours, from the layout of the
    text: the same pens, repainted. *)
Lemma layout_repaint (utf32String : list Z) :
  m_vertices t = [] -> m_outlineVertices t = [] ->
  finish f (set_colors fill outline t)
    (scan f (set_colors fill outline t) utf32String
       (initial f (set_colors fill outline t))) =
    repaint fill outline (finish f t (scan f t utf32String (initial f t))).
Proof.
  intros V O.
  assert (I : initial f (set_colors fill outline t) = repaint fill outline (initial f t)).
  { apply Pen_ext; pens; cbn [initial x y minX minY maxX maxY prevChar truncated vertices
      outlineVertices];
      change (m_vertices (set_colors fill outline t)) with (m_vertices t);
      change (m_outlineVertices (set_colors fill outline t)) with (m_outlineVertices t);
      rewrite ?V, ?O; reflexivity. }
  rewrite I, scan_repaint, finish_repaint. reflexivity.
Qed.

End Repaint.


Lemma set_colors_own (t : Text) : set_colors (m_fillColor t) (m_outlineColor t) t = t.
Proof. destruct t; reflexivity. Qed.

Section Colours.

Context {rt : Runtime}.


(** A pen that repainting leaves as it is carries the colours. *)
Lemma repaint_fixed (fill outline : Color) (s : Pen) :
  s = repaint fill outline s ->
  recolor fill (vertices s) = vertices s /\
  recolor outline (outlineVertices s) = outlineVertices s.
Proof.
  intros H. split.
  - apply (f_equal vertices) in H. symmetry. exact H.
  - apply (f_equal outlineVertices) in H. symmetry. exact H.
Qed.

(** The pen at the end of a layout carries the colours of the text. *)
Lemma layout_pen_colors (t : Text) (f : Font) (utf32String : list Z) :
  recolor (m_fillColor t)
    (vertices (finish f (entered t)
                 (scan f (entered t) utf32String (initial f (entered t))))) =
    vertices (finish f (entered t)
                (scan f (entered t) utf32String (initial f (entered t)))) /\
  recolor (m_outlineColor t)
    (outlineVertices (finish f (entered t)
                        (scan f (entered t) utf32String (initial f (entered t))))) =
    outlineVertices (finish f (entered t)
                       (scan f (entered t) utf32String (initial f (entered t)))).
Proof.
  pose proof (layout_repaint f (entered t) (m_fillColor (entered t))
                (m_outlineColor (entered t)) utf32String eq_refl eq_refl) as H.
  rewrite set_colors_own in H.
  apply (repaint_fixed (m_fillColor (entered t)) (m_outlineColor (entered t)) _ H).
Qed.

(** After a layout every vertex of the fill buffer has the fill colour
    and every vertex of the outline buffer has the outline colour. *)
Theorem layout_colors (t : Text) (p : positive) (utf32String : list Z) :
  m_geometryNeedUpdate t = true ->
  m_font t = Some p ->
  m_string t <> EmptyString ->
  from_bytes (m_string t) = Some utf32String ->
  map color (m_vertices (state_of (ensureGeometryUpdate t))) =
    repeat (m_fillColor t) (length (m_vertices (state_of (ensureGeometryUpdate t)))) /\
  map color (m_outlineVertices (state_of (ensureGeometryUpdate t))) =
    repeat (m_outlineColor t)
      (length (m_outlineVertices (state_of (ensureGeometryUpdate t)))).
Proof.
  intros Hd Hf Hs Hu.
  rewrite (ensureGeometryUpdate_layout t p utf32String Hd Hf Hs Hu). cbn [state_of].
  change (m_vertices (publish ?s ?u)) with (vertices s).
  change (m_outlineVertices (publish ?s ?u)) with (outlineVertices s).
  destruct (layout_pen_colors t (font_at p) utf32String) as [V O]. split.
  - rewrite <- V at 1. apply recolor_color.
  - rewrite <- O at 1. apply recolor_color.
Qed.






End Colours.

(** ** What a layout depends on *)

Section Dependence.

Context {rt : Runtime}.

Lemma scan_set_size (f : Font) (t : Text) (size : Vector2f) (utf32String : list Z) :
  forall s, scan f (set_size size t) utf32String s = scan f t utf32String s.
Proof.
  induction utf32String as [|curChar rest IH]; intros s; [reflexivity|].
  cbn [scan]. change (step f (set_size size t) curChar s) with (step f t curChar s).
  destruct (step f t curChar s); [apply IH | reflexivity | reflexivity].
Qed.

Lemma finish_set_size (f : Font) (t : Text) (size : Vector2f) (s : Pen) :
  finish f (set_size size t) s = finish f t s.
Proof.
  assert (D : forall s', addDot f (set_size size t) s' = addDot f t s')
    by reflexivity.
  assert (E : add_ellipsis f (set_size size t) s = add_ellipsis f t s).
  { unfold add_ellipsis. rewrite !D. reflexivity. }
  assert (U : forall s', addUnderline f (set_size size t) s' = addUnderline f t s')
    by reflexivity.
  assert (S : forall s', addStrikeThrough f (set_size size t) s' = addStrikeThrough f t s')
    by reflexivity.
  unfold finish. rewrite E, U, S. reflexivity.
Qed.

(** A layout is a function of the attributes: whatever the buffers, the
    bounds and the size held before, the call ends in the same state. *)
Theorem layout_ignores_previous_geometry (t : Text) (p : positive)
    (utf32String : list Z) (v o : VertexArray) (b : FloatRect) (size : Vector2f) :
  m_geometryNeedUpdate t = true ->
  m_font t = Some p ->
  m_string t <> EmptyString ->
  from_bytes (m_string t) = Some utf32String ->
  ensureGeometryUpdate
    (set_size size (set_bounds b (set_outlineVertices o (set_vertices v t)))) =
    ensureGeometryUpdate t.
Proof.
  intros Hd Hf Hs Hu.
  rewrite (ensureGeometryUpdate_layout
             (set_size size (set_bounds b (set_outlineVertices o (set_vertices v t))))
             p utf32String Hd Hf Hs Hu),
    (ensureGeometryUpdate_layout t p utf32String Hd Hf Hs Hu).
  change (entered (set_size size (set_bounds b (set_outlineVertices o (set_vertices v t)))))
    with (set_size size (entered t)).
  change (initial (font_at p) (set_size size (entered t)))
    with (initial (font_at p) (entered t)).
  rewrite scan_set_size.
  generalize (scan (font_at p) (entered t) utf32String (initial (font_at p) (entered t))).
  intros s. rewrite finish_set_size.
  generalize (finish (font_at p) (entered t) s). intros s'.
  reflexivity.
Qed.

Lemma add_ellipsis_y (f : Font) (t : Text) (s : Pen) :
  y (add_ellipsis f t s) = y s.
Proof.
  unfold add_ellipsis. destruct (_ && _); [|reflexivity].
  destruct (addDot_pen f t (addDot f t (addDot f t s))) as [_ ->].
  destruct (addDot_pen f t (addDot f t s)) as [_ ->].
  destruct (addDot_pen f t s) as [_ ->]. reflexivity.
Qed.

(** In Clamp mode the pen never leaves the first baseline: whatever
    newlines the string holds, the final pen, at which the decoration
    bars are placed, has the y of the start. *)
Theorem clamp_keeps_one_baseline (t : Text) (p : positive) (utf32String : list Z) :
  m_geometryNeedUpdate t = true ->
  m_font t = Some p ->
  m_string t <> EmptyString ->
  from_bytes (m_string t) = Some utf32String ->
  m_overflow t = Clamp ->
  let f := font_at p in
  let pen :=
    add_ellipsis f (entered t) (scan f (entered t) utf32String (initial f (entered t))) in
  y pen = startY f (entered t) /\
  m_vertices (state_of (ensureGeometryUpdate t)) =
    vertices pen ++ decoration f (entered t) pen.
Proof.
  intros Hd Hf Hs Hu Hclamp f pen.
  assert (Hsingle : singleLineMode (entered t) = true).
  { unfold singleLineMode. cbn. rewrite Hclamp. reflexivity. }
  split.
  - unfold pen. rewrite add_ellipsis_y.
    destruct (scan_clampWalk f (entered t) Hsingle utf32String (initial f (entered t))
                eq_refl) as (_ & _ & Y & _).
    exact Y.
  - rewrite (ensureGeometryUpdate_layout t p utf32String Hd Hf Hs Hu). cbn [state_of].
    change (m_vertices (publish ?s ?u)) with (vertices s).
    apply finish_decoration.
Qed.

(** In Wrap mode no ellipsis is ever placed: when a new line would pass
    the available height the loop stops and the rest of the string is
    dropped without a mark; the buffers are what the loop left, then the
    decoration. *)
Theorem wrap_places_no_ellipsis (t : Text) (p : positive) (utf32String : list Z) :
  m_geometryNeedUpdate t = true ->
  m_font t = Some p ->
  m_string t <> EmptyString ->
  from_bytes (m_string t) = Some utf32String ->
  m_overflow t <> Clamp ->
  let f := font_at p in
  let s := scan f (entered t) utf32String (initial f (entered t)) in
  m_vertices (state_of (ensureGeometryUpdate t)) =
    vertices s ++ decoration f (entered t) s /\
  m_outlineVertices (state_of (ensureGeometryUpdate t)) =
    outlineVertices s ++ outlineDecoration f (entered t) s.
Proof.
  intros Hd Hf Hs Hu Hwrap f s.
  assert (E : add_ellipsis f (entered t) s = s).
  { unfold add_ellipsis.
    change (singleLineMode (entered t)) with (m_overflow t =? Clamp).
    apply Z.eqb_neq in Hwrap. rewrite Hwrap, andb_false_r. reflexivity. }
  rewrite (ensureGeometryUpdate_layout t p utf32String Hd Hf Hs Hu). cbn [state_of].
  change (m_vertices (publish ?a ?u)) with (vertices a).
  change (m_outlineVertices (publish ?a ?u)) with (outlineVertices a).
  fold f s. rewrite finish_decoration, finish_outlineDecoration, E. split; reflexivity.
Qed.

(** On a bitmap font the two outline setters change nothing, whatever
    the value given and whatever the flag, the string and the geometry:
    the outline thickness and the outline colour of the text stay those
    it had when the font was set. *)
Theorem bitmap_font_rejects_outline_setters (t : Text) (p : positive) :
  m_font t = Some p ->
  isBmFont (font_at p) = true ->
  (forall thickness, setOutlineThickness thickness t = Some t) /\
  (forall c, setOutlineColor c t = Some t) /\
  (forall alpha t',
     setAlpha alpha false t = Some t' -> m_outlineColor t' = m_outlineColor t).
Proof.
  intros Hf Hb. repeat match goal with |- _ /\ _ => split end.
  - intros thickness. unfold setOutlineThickness. rewrite Hf, Hb. reflexivity.
  - intros c. unfold setOutlineColor. rewrite Hf, Hb. reflexivity.
  - intros alpha t'. unfold setAlpha.
    destruct (negb (alpha =? a (m_fillColor t))); [|intros [= <-]; reflexivity].
    assert (F : m_font (setFillColor (with_alpha alpha (m_fillColor t)) t) = m_font t /\
                m_outlineColor (setFillColor (with_alpha alpha (m_fillColor t)) t)
                  = m_outlineColor t).
    { unfold setFillColor. destruct (negb (Color_eqb _ _)); [|split; reflexivity].
      cbn zeta. destruct (negb _); split; reflexivity. }
    destruct F as [F1 F2]. unfold setOutlineColor. rewrite F1, Hf, Hb. cbn [negb andb].
    intros [= <-]. exact F2.
Qed.

End Dependence.

(** ** What the position query depends on *)

Section Query.

Context {rt : Runtime}.

Lemma findCharacterPos_ext (index : nat) (t t' : Text) :
  m_font t = m_font t' -> m_string t = m_string t' ->
  m_characterSize t = m_characterSize t' -> m_style t = m_style t' ->
  m_line_spacing t = m_line_spacing t' -> getTransform t = getTransform t' ->
  findCharacterPos index t = findCharacterPos index t'.
Proof. destruct t, t'; cbn; intros; subst; reflexivity. Qed.

(** The position query reads neither the geometry nor the overflow mode,
    the box or the colours: it answers the same before and after a
    layout, in Wrap mode as in Clamp mode, whatever the box, so it does
    not follow the lines a wrapped layout makes nor the truncation of a
    clamped one. *)
Theorem findCharacterPos_ignores_layout (index : nat) (t : Text) :
  findCharacterPos index (state_of (ensureGeometryUpdate t)) = findCharacterPos index t /\
  (forall overflow, findCharacterPos index (setOverflow overflow t) =
                    findCharacterPos index t) /\
  (forall w h, findCharacterPos index (setSizeMax w h t) = findCharacterPos index t) /\
  (forall c, findCharacterPos index (setFillColor c t) = findCharacterPos index t).
Proof.
  repeat match goal with |- _ /\ _ => split end.
  - unfold ensureGeometryUpdate.
    destruct (m_geometryNeedUpdate t); cbn [negb]; [|reflexivity].
    change (m_font (set_geometryNeedUpdate false t)) with (m_font t).
    destruct (m_font t) as [p|] eqn:Hf;
      [|apply findCharacterPos_ext; cbn; auto].
    change (m_string (set_geometryNeedUpdate false t)) with (m_string t).
    destruct (String.eqb (m_string t) EmptyString);
      [apply findCharacterPos_ext; cbn; auto|].
    change (m_string (clear (set_geometryNeedUpdate false t))) with (m_string t).
    destruct (from_bytes (m_string t)); cbn [state_of];
      apply findCharacterPos_ext; reflexivity.
  - intros overflow. unfold setOverflow.
    destruct (negb _); [|reflexivity]. apply findCharacterPos_ext; reflexivity.
  - intros w h. apply findCharacterPos_ext; reflexivity.
  - intros c. unfold setFillColor. destruct (negb _); [|reflexivity].
    cbn zeta. destruct (negb _); apply findCharacterPos_ext; reflexivity.
Qed.

Lemma firstn_clamped {A : Type} (index : nat) (l : list A) :
  firstn (if (length l <? index)%nat then length l else index) l = firstn index l.
Proof.
  destruct (length l <? index)%nat eqn:E; [|reflexivity].
  apply Nat.ltb_lt in E. rewrite firstn_all, firstn_all2 by lia. reflexivity.
Qed.

(** The position before a character depends only on the characters
    before it: two strings whose decoded sequences agree on the first
    [index] characters have the same position at [index]. *)
Theorem findCharacterPos_reads_a_prefix (index : nat) (t : Text) (p : positive)
    (s1 s2 : string) (u1 u2 : list Z) :
  m_font t = Some p ->
  from_bytes s1 = Some u1 ->
  from_bytes s2 = Some u2 ->
  firstn index u1 = firstn index u2 ->
  findCharacterPos index (set_string s1 t) = findCharacterPos index (set_string s2 t).
Proof.
  intros Hf H1 H2 Hp. unfold findCharacterPos.
  change (m_font (set_string s1 t)) with (m_font t).
  change (m_font (set_string s2 t)) with (m_font t).
  change (m_string (set_string s1 t)) with s1.
  change (m_string (set_string s2 t)) with s2.
  rewrite Hf, H1, H2, !firstn_clamped, Hp.
  change (advancePos (font_at p) (set_string s1 t))
    with (advancePos (font_at p) (set_string s2 t)).
  reflexivity.
Qed.

End Query.

(** ** What [ensureGeometryUpdate] leaves alone *)

Section Attributes.

Context {rt : Runtime}.

(** [ensureGeometryUpdate] writes the flag, the two buffers, the bounds
    and the size, and nothing else: every attribute is the one of
    before, on every path, the raising one included. *)
Theorem ensureGeometryUpdate_keeps_attributes (t : Text) :
  m_string (state_of (ensureGeometryUpdate t)) = m_string t /\
  m_font (state_of (ensureGeometryUpdate t)) = m_font t /\
  m_characterSize (state_of (ensureGeometryUpdate t)) = m_characterSize t /\
  m_style (state_of (ensureGeometryUpdate t)) = m_style t /\
  m_overflow (state_of (ensureGeometryUpdate t)) = m_overflow t /\
  m_fillColor (state_of (ensureGeometryUpdate t)) = m_fillColor t /\
  m_outlineColor (state_of (ensureGeometryUpdate t)) = m_outlineColor t /\
  m_outlineThickness (state_of (ensureGeometryUpdate t)) = m_outlineThickness t /\
  m_max_size (state_of (ensureGeometryUpdate t)) = m_max_size t /\
  m_line_spacing (state_of (ensureGeometryUpdate t)) = m_line_spacing t /\
  m_textureSize (state_of (ensureGeometryUpdate t)) = m_textureSize t /\
  getTransform (state_of (ensureGeometryUpdate t)) = getTransform t.
Proof.
  assert (H : exists t', ensureGeometryUpdate t = t' /\
            (state_of t' = t \/ state_of t' = set_geometryNeedUpdate false t \/
             state_of t' = entered t \/ exists s, state_of t' = publish s (entered t))).
  { eexists. split; [reflexivity|]. unfold ensureGeometryUpdate.
    destruct (m_geometryNeedUpdate t); cbn [negb]; [|left; reflexivity].
    change (m_font (set_geometryNeedUpdate false t)) with (m_font t).
    destruct (m_font t) as [p|]; [|right; left; reflexivity].
    change (m_string (set_geometryNeedUpdate false t)) with (m_string t).
    destruct (String.eqb (m_string t) EmptyString); [right; left; reflexivity|].
    change (m_string (clear (set_geometryNeedUpdate false t))) with (m_string t).
    destruct (from_bytes (m_string t)); cbn [state_of].
    - right; right; right. eexists. reflexivity.
    - right; right; left. reflexivity. }
  destruct H as (r & -> & [E|[E|[E|[s E]]]]); rewrite E;
    repeat match goal with |- _ /\ _ => split end; reflexivity.
Qed.


End Attributes.

(** ** Clamp mode and the height of the box *)

Section BoxHeight.

Context {rt : Runtime}.
Variables (f : Font) (t : Text) (w h h' : float).

Ltac same_box :=
  change (singleLineMode (set_max_size {| vx := w; vy := h' |} t))
    with (singleLineMode (set_max_size {| vx := w; vy := h |} t));
  change (availableWidth (set_max_size {| vx := w; vy := h' |} t))
    with (availableWidth (set_max_size {| vx := w; vy := h |} t));
  change (hspace f (set_max_size {| vx := w; vy := h' |} t))
    with (hspace f (set_max_size {| vx := w; vy := h |} t));
  change (ellipsisWidth f (set_max_size {| vx := w; vy := h' |} t))
    with (ellipsisWidth f (set_max_size {| vx := w; vy := h |} t));
  change (bold (set_max_size {| vx := w; vy := h' |} t))
    with (bold (set_max_size {| vx := w; vy := h |} t));
  change (m_characterSize (set_max_size {| vx := w; vy := h' |} t))
    with (m_characterSize (set_max_size {| vx := w; vy := h |} t));
  change (blank (set_max_size {| vx := w; vy := h' |} t))
    with (blank (set_max_size {| vx := w; vy := h |} t));
  change (emit f (set_max_size {| vx := w; vy := h' |} t))
    with (emit f (set_max_size {| vx := w; vy := h |} t)).

Lemma step_box_height (curChar : Z) (s : Pen) :
  m_overflow t = Clamp ->
  step f (set_max_size {| vx := w; vy := h' |} t) curChar s =
    step f (set_max_size {| vx := w; vy := h |} t) curChar s.
Proof.
  intros Hclamp.
  assert (S : singleLineMode (set_max_size {| vx := w; vy := h |} t) = true).
  { unfold singleLineMode. cbn. rewrite Hclamp. reflexivity. }
  unfold step. same_box. rewrite S. cbv iota. reflexivity.
Qed.

Lemma scan_box_height (utf32String : list Z) :
  m_overflow t = Clamp ->
  forall s,
    scan f (set_max_size {| vx := w; vy := h' |} t) utf32String s =
      scan f (set_max_size {| vx := w; vy := h |} t) utf32String s.
Proof.
  intros Hclamp. induction utf32String as [|curChar rest IH]; intros s; [reflexivity|].
  cbn [scan]. rewrite (step_box_height curChar s Hclamp).
  destruct (step f _ curChar s); [apply IH | reflexivity | reflexivity].
Qed.

Lemma finish_box_height (s : Pen) :
  finish f (set_max_size {| vx := w; vy := h' |} t) s =
    finish f (set_max_size {| vx := w; vy := h |} t) s.
Proof.
  assert (D : forall s', addDot f (set_max_size {| vx := w; vy := h' |} t) s' =
                         addDot f (set_max_size {| vx := w; vy := h |} t) s')
    by reflexivity.
  assert (E : add_ellipsis f (set_max_size {| vx := w; vy := h' |} t) s =
              add_ellipsis f (set_max_size {| vx := w; vy := h |} t) s).
  { unfold add_ellipsis. rewrite !D. reflexivity. }
  assert (U : forall s', addUnderline f (set_max_size {| vx := w; vy := h' |} t) s' =
                         addUnderline f (set_max_size {| vx := w; vy := h |} t) s')
    by reflexivity.
  assert (S : forall s', addStrikeThrough f (set_max_size {| vx := w; vy := h' |} t) s' =
                         addStrikeThrough f (set_max_size {| vx := w; vy := h |} t) s')
    by reflexivity.
  unfold finish. rewrite E, U, S. reflexivity.
Qed.

End BoxHeight.

Section BoxHeightLayout.

Context {rt : Runtime}.

(** In Clamp mode the height of the box plays no part: two boxes of the
    same width give the same buffers, bounds and size, so a single line
    is never cut for being too high. *)
Theorem clamp_ignores_box_height (t : Text) (p : positive) (utf32String : list Z)
    (w h h' : float) :
  m_font t = Some p ->
  m_string t <> EmptyString ->
  from_bytes (m_string t) = Some utf32String ->
  m_overflow t = Clamp ->
  m_vertices (state_of (ensureGeometryUpdate (setSizeMax w h' t))) =
    m_vertices (state_of (ensureGeometryUpdate (setSizeMax w h t))) /\
  m_outlineVertices (state_of (ensureGeometryUpdate (setSizeMax w h' t))) =
    m_outlineVertices (state_of (ensureGeometryUpdate (setSizeMax w h t))) /\
  m_bounds (state_of (ensureGeometryUpdate (setSizeMax w h' t))) =
    m_bounds (state_of (ensureGeometryUpdate (setSizeMax w h t))) /\
  m_size (state_of (ensureGeometryUpdate (setSizeMax w h' t))) =
    m_size (state_of (ensureGeometryUpdate (setSizeMax w h t))).
Proof.
  intros Hf Hs Hu Hclamp.
  rewrite (ensureGeometryUpdate_layout (setSizeMax w h' t) p utf32String
             eq_refl Hf Hs Hu),
    (ensureGeometryUpdate_layout (setSizeMax w h t) p utf32String eq_refl Hf Hs Hu).
  cbn [state_of].
  change (entered (setSizeMax w h' t))
    with (set_max_size {| vx := w; vy := h' |} (entered t)).
  change (entered (setSizeMax w h t))
    with (set_max_size {| vx := w; vy := h |} (entered t)).
  change (initial (font_at p) (set_max_size {| vx := w; vy := h' |} (entered t)))
    with (initial (font_at p) (set_max_size {| vx := w; vy := h |} (entered t))).
  rewrite (scan_box_height (font_at p) (entered t) w h h' utf32String Hclamp),
    (finish_box_height (font_at p) (entered t) w h h').
  generalize (finish (font_at p) (set_max_size {| vx := w; vy := h |} (entered t))
                (scan (font_at p) (set_max_size {| vx := w; vy := h |} (entered t))
                   utf32String
                   (initial (font_at p) (set_max_size {| vx := w; vy := h |} (entered t))))).
  intros s. repeat split.
Qed.

End BoxHeightLayout.

(** ** The further properties at work on the demo runtime *)

Module Checks.
Import Demo Examples Cases.
Local Open Scope string_scope.

Lemma setters_keep_dirty_witness :
  m_geometryNeedUpdate fresh_ab = true /\
  m_geometryNeedUpdate (setFillColor red fresh_ab) = true /\
  m_geometryNeedUpdate (setLineSpacingModifier 3 fresh_ab) = true.
Proof.
  destruct (setters_keep_dirty (rt := runtime) fresh_ab eq_refl)
    as (_ & _ & _ & _ & _ & _ & L & F & _).
  split; [reflexivity|]. split; [apply F | apply L].
Defined.

Lemma getters_after_setters_witness :
  m_font fresh_ab = Some 1%positive /\
  getString (setString "xy" fresh_ab) = "xy" /\
  option_map getOutlineColor (setOutlineColor red fresh_ab) = Some red.
Proof.
  destruct (getters_after_setters (rt := runtime) fresh_ab 1 eq_refl)
    as (S & _ & _ & _ & _ & _ & O).
  split; [reflexivity|]. split; [apply S | apply O].
Defined.

Lemma ensureGeometryUpdate_writes_only_the_flag_witness :
  m_string emptied = "" /\
  m_vertices emptied <> [] /\
  ensureGeometryUpdate emptied = Ok (set_geometryNeedUpdate false emptied).
Proof.
  split; [reflexivity|]. split; [vm_compute; discriminate|].
  apply (ensureGeometryUpdate_writes_only_the_flag (rt := runtime) emptied).
  right. right. reflexivity.
Defined.

Lemma ensureGeometryUpdate_range_error_witness :
  from_bytes (m_string (new broken 16 1)) = None /\
  ensureGeometryUpdate (new broken 16 1) = RangeError (entered (new broken 16 1)) /\
  findCharacterPos 0 (new broken 16 1) = None.
Proof.
  destruct (ensureGeometryUpdate_range_error (rt := runtime) (new broken 16 1) 1
              eq_refl eq_refl ltac:(discriminate) eq_refl)
    as (E & _ & _ & _ & _ & _ & _ & Q).
  split; [reflexivity|]. split; [exact E | apply Q].
Defined.

Lemma setAlpha_sets_alpha_witness :
  m_font laid_ab = Some 1%positive /\
  option_map getAlpha (setAlpha 128 false laid_ab) = Some 128 /\
  option_map (fun t => a (m_outlineColor t)) (setAlpha 128 false laid_ab) = Some 128.
Proof.
  destruct (setAlpha_sets_alpha (rt := runtime) 128 laid_ab 1 eq_refl)
    as (t' & E & A & _ & _ & _ & O).
  split; [reflexivity|]. rewrite E. cbn [option_map]. rewrite A, O. split; reflexivity.
Defined.

Lemma layout_quads_witness :
  from_bytes (m_string hello) = Some hello_utf32 /\
  exists n : nat,
    (n <= 16)%nat /\
    length (m_vertices (laid hello)) = (6 * n)%nat /\
    length (m_outlineVertices (laid hello)) = 0%nat.
Proof.
  destruct (layout_quads (rt := runtime) hello 1 hello_utf32 eq_refl eq_refl
              ltac:(discriminate) eq_refl) as (n & Hn & V & O).
  split; [reflexivity|]. exists n. split; [exact Hn|]. split; [exact V | exact O].
Defined.

Lemma layout_colors_witness :
  from_bytes (m_string outlined_ab) = Some [97; 98] /\
  map color (m_vertices (laid outlined_ab)) = repeat white 12 /\
  map color (m_outlineVertices (laid outlined_ab)) = repeat black 12.
Proof.
  destruct (layout_colors (rt := runtime) outlined_ab 1 [97; 98] eq_refl eq_refl
              ltac:(discriminate) eq_refl) as (V & O).
  split; [reflexivity|]. unfold laid. rewrite V, O. split; reflexivity.
Defined.



Lemma layout_ignores_previous_geometry_witness :
  m_geometryNeedUpdate fresh_ab = true /\
  ensureGeometryUpdate
    (set_size (m_size (laid hello))
       (set_bounds (m_bounds (laid hello))
          (set_outlineVertices (m_vertices (laid hello))
             (set_vertices (m_vertices (laid hello)) fresh_ab)))) =
    ensureGeometryUpdate fresh_ab.
Proof.
  split; [reflexivity|].
  apply (layout_ignores_previous_geometry (rt := runtime) fresh_ab 1 [97; 98]
           _ _ _ _ eq_refl eq_refl ltac:(discriminate) eq_refl).
Defined.

Lemma clamp_keeps_one_baseline_witness :
  from_bytes (m_string clamped_lines) = Some [97; 10; 98] /\
  m_overflow clamped_lines = Clamp /\
  y (add_ellipsis (font_at 1) (entered clamped_lines)
       (scan (font_at 1) (entered clamped_lines) [97; 10; 98]
          (initial (font_at 1) (entered clamped_lines)))) =
    startY (font_at 1) (entered clamped_lines) /\
  length (m_vertices (laid clamped_lines)) = 12%nat.
Proof.
  destruct (clamp_keeps_one_baseline (rt := runtime) clamped_lines 1 [97; 10; 98]
              eq_refl eq_refl ltac:(discriminate) eq_refl eq_refl) as (Y & V).
  split; [reflexivity|]. split; [reflexivity|]. split; [exact Y|].
  unfold laid. rewrite V. reflexivity.
Defined.

Lemma wrap_places_no_ellipsis_witness :
  from_bytes (m_string cut_lines) = Some [97; 10; 98] /\
  m_overflow cut_lines = Wrap /\
  truncated (scan (font_at 1) (entered cut_lines) [97; 10; 98]
               (initial (font_at 1) (entered cut_lines))) = true /\
  length (m_vertices (laid cut_lines)) = 6%nat.
Proof.
  destruct (wrap_places_no_ellipsis (rt := runtime) cut_lines 1 [97; 10; 98]
              eq_refl eq_refl ltac:(discriminate) eq_refl ltac:(discriminate)) as (V & _).
  split; [reflexivity|]. split; [reflexivity|]. split; [reflexivity|].
  unfold laid. rewrite V. reflexivity.
Defined.

Lemma bitmap_font_rejects_outline_setters_witness :
  m_font (laid bitmap_outlined) = Some 2%positive /\
  isBmFont (font_at 2) = true /\
  m_outlineThickness (laid bitmap_outlined) = F32.of_Z 2 /\
  length (m_outlineVertices (laid bitmap_outlined)) = 12%nat /\
  setOutlineThickness F32.zero (laid bitmap_outlined) = Some (laid bitmap_outlined) /\
  setOutlineColor red (laid bitmap_outlined) = Some (laid bitmap_outlined).
Proof.
  destruct (bitmap_font_rejects_outline_setters (rt := runtime) (laid bitmap_outlined) 2
              eq_refl eq_refl) as (T & C & _).
  split; [reflexivity|]. split; [reflexivity|]. split; [reflexivity|].
  split; [reflexivity|]. split; [apply T | apply C].
Defined.

Lemma findCharacterPos_reads_a_prefix_witness :
  from_bytes "ab" = Some [97; 98] /\
  from_bytes "ac" = Some [97; 99] /\
  findCharacterPos 1 (set_string "ab" fresh_ab) =
    findCharacterPos 1 (set_string "ac" fresh_ab).
Proof.
  split; [reflexivity|]. split; [reflexivity|].
  apply (findCharacterPos_reads_a_prefix (rt := runtime) 1 fresh_ab 1 "ab" "ac"
           [97; 98] [97; 99] eq_refl eq_refl eq_refl eq_refl).
Defined.


Lemma clamp_ignores_box_height_witness :
  m_overflow clamped_lines = Clamp /\
  m_vertices (laid (setSizeMax F32.zero (F32.of_Z 1) clamped_lines)) =
    m_vertices (laid (setSizeMax F32.zero (F32.of_Z 100) clamped_lines)).
Proof.
  destruct (clamp_ignores_box_height (rt := runtime) clamped_lines 1 [97; 10; 98]
              F32.zero (F32.of_Z 100) (F32.of_Z 1)
              eq_refl ltac:(discriminate) eq_refl eq_refl) as (V & _).
  split; [reflexivity|]. exact V.
Defined.

End Checks.
